(** * rauc-installer.c: the RAUC D-Bus install session

    A shallow embedding of [src/rauc-installer.c] and the properties of the
    session life cycle: the two D-Bus signal handlers, the worker thread
    [install_loop_thread], the constructor/destructor of [install_context]
    and the entry point [rauc_install].

    The worker thread is sequential, so it is embedded as explicit state
    passing over a [world]; every externally visible effect (GLib calls,
    callback invocations, writes to the shared fields) is also appended to a
    [trace], so that ordering and counting properties can be stated.

    What GLib and the D-Bus service do is outside the repository; it enters
    as data:
    - an [environment] holds the values returned by the proxy constructor,
      by the two [g_signal_connect] calls and by the synchronous install
      call, and the D-Bus signals the service emits afterwards;
    - [g_main_loop_run] iterates the loop context; an iteration dispatches
      every signal that is ready in it to the connected handlers, and
      [g_main_loop_quit] only clears the loop's flag, so the loop returns
      after the iteration in which a handler quit it, with the signals
      behind that handler in the same iteration dispatched as well;
    - [g_main_context_invoke] calls the function directly when the calling
      thread owns the target context (or has it as thread default), and
      attaches an idle source to the target context otherwise;
    - the caller's callbacks are functions on the two fields of the context
      that are shared under [status_mutex]. *)

From Stdlib Require Import ZArith List String Ascii Bool Lia.
From Stdlib Require Import Decimal DecimalPos DecimalZ DecimalString.
Import ListNotations.
Local Open Scope string_scope.
Local Open Scope list_scope.
Local Open Scope Z_scope.

(** ** GLib data *)

(** A [GMainContext *] is a handle.  The handle [0] is [NULL], which GLib
    reads as the global default context; [g_main_context_new] hands out
    the next unused handle above it. *)
Definition GMainContext := nat.

(** [GMainLoop]: the context it iterates and its [is_running] flag. *)
Record GMainLoop := mkLoop {
  loop_ctx : GMainContext;
  is_running : bool
}.

Inductive GBusType := G_BUS_TYPE_SYSTEM | G_BUS_TYPE_SESSION.

(** The values a property of the [a{sv}] dictionary can hold: a string
    (["s"]), the progress triple (["(isi)"]), or a value of another type. *)
Inductive GVariant :=
| GV_s (s : string)
| GV_isi (i : Z) (s : string) (j : Z)
| GV_i (i : Z)
| GV_b (b : bool).

(** The [changed] argument of ["g-properties-changed"]: the entries of an
    [a{sv}] dictionary, in order. *)
Definition vardict := list (string * GVariant).

(** [g_variant_lookup_value]: the value of the first entry with this key. *)
Fixpoint g_variant_lookup_value (d : vardict) (key : string) : option GVariant :=
  match d with
  | [] => None
  | (k, v) :: d' => if String.eqb k key then Some v else g_variant_lookup_value d' key
  end.

(** [g_variant_lookup (d, key, "s", &message)]: succeeds when the key is
    there with a value of type string. *)
Definition g_variant_lookup_s (d : vardict) (key : string) : option string :=
  match g_variant_lookup_value d key with
  | Some (GV_s s) => Some s
  | _ => None
  end.

(** [g_variant_lookup (d, key, "(isi)", &percentage, &message, &depth)]. *)
Definition g_variant_lookup_isi (d : vardict) (key : string) : option (Z * string * Z) :=
  match g_variant_lookup_value d key with
  | Some (GV_isi i s j) => Some (i, s, j)
  | _ => None
  end.

(** ** printf formats *)

(** ["%d"] of a [gint32]. *)
Definition string_of_gint32 (i : Z) : string :=
  NilZero.string_of_int (Z.to_int i).

Fixpoint spaces (n : nat) : string :=
  match n with
  | O => EmptyString
  | S n' => String " " (spaces n')
  end.

(** ["%3d"]: right justified in a field of at least three characters. *)
Definition printf_3d (i : Z) : string :=
  let s := string_of_gint32 i in
  spaces (3 - String.length s) ++ s.

(** [g_strdup_printf ("%3" G_GINT32_FORMAT "%% %s", percentage, message)]. *)
Definition printf_progress (percentage : Z) (message : string) : string :=
  printf_3d percentage ++ "% " ++ message.

(** [g_strdup_printf ("LastError: %s", message)]. *)
Definition printf_last_error (message : string) : string :=
  "LastError: " ++ message.

(** ** The install context *)

(** What a callback can change through its [gpointer]: the result and the
    message queue, the two fields shared under [status_mutex] ("the only
    state touched by both" sides, in the words of the specification). *)
Definition shared := (Z * list string)%type.

(** A [GSourceFunc] of the caller, by its effect on the shared fields.  The
    callbacks live in the calling application and are parameters here.
    Their [gboolean] result is [G_SOURCE_REMOVE]. *)
Definition GSourceFunc := shared -> shared.

(** Modelled from the spec: [struct install_context] is declared in
    [rauc-installer.h], which is not among the sources.  The fields are
    those [rauc-installer.c] reads and writes, the attributes the
    specification gives the Install Session; [status_mutex] is the one
    mutex below.  A [NULL] callback is [None]. *)
Record install_context := mkContext {
  bundle : string;
  notify_event : option GSourceFunc;
  notify_complete : option GSourceFunc;
  mainloop : GMainLoop;
  loop_context : GMainContext;
  status_result : Z;
  status_messages : list string
}.

(** The context has one mutex. *)
Inductive GMutex := status_mutex.

(** Which of the two callbacks of the context a call runs. *)
Inductive callback := cb_notify_event | cb_notify_complete.

(** The effects of the worker thread, in the order they happen. *)
Inductive action :=
| a_set_result (r : Z)
| a_thread_new
| a_push_thread_default (c : GMainContext)
| a_proxy_new (bus : GBusType)
| a_signal_connect (signal : string)
| a_call_install (b : string)
| a_loop_run (c : GMainContext)
| a_loop_quit
| a_lock (m : GMutex)
| a_unlock (m : GMutex)
| a_queue_push (s : string)
| a_invoke (target : GMainContext) (f : callback)
| a_call (f : callback)
| a_idle_attach (target : GMainContext) (f : callback)
| a_signals_disconnect
| a_pop_thread_default (c : GMainContext)
| a_free_bundle
| a_mutex_clear (m : GMutex)
| a_context_unref (c : GMainContext)
| a_assert_failed (what : string)
| a_loop_unref
| a_free_context.

(** The state of the worker thread: the context object, the main context
    the thread currently owns (it is iterating it), its stack of
    thread-default contexts, the number of main contexts created so far,
    and the trace. *)
Record world := mkWorld {
  context : install_context;
  owned : option GMainContext;
  thread_default : list GMainContext;
  allocated : nat;
  trace : list action
}.

Definition set_context (c : install_context) (w : world) : world :=
  mkWorld c (owned w) (thread_default w) (allocated w) (trace w).

Definition set_owned (o : option GMainContext) (w : world) : world :=
  mkWorld (context w) o (thread_default w) (allocated w) (trace w).

Definition set_thread_default (l : list GMainContext) (w : world) : world :=
  mkWorld (context w) (owned w) l (allocated w) (trace w).

Definition emit (a : action) (w : world) : world :=
  mkWorld (context w) (owned w) (thread_default w) (allocated w) (trace w ++ [a]).

Definition with_status_result (r : Z) (c : install_context) : install_context :=
  mkContext (bundle c) (notify_event c) (notify_complete c) (mainloop c)
            (loop_context c) r (status_messages c).

Definition with_status_messages (q : list string) (c : install_context) : install_context :=
  mkContext (bundle c) (notify_event c) (notify_complete c) (mainloop c)
            (loop_context c) (status_result c) q.

Definition with_running (b : bool) (c : install_context) : install_context :=
  mkContext (bundle c) (notify_event c) (notify_complete c)
            (mkLoop (loop_ctx (mainloop c)) b)
            (loop_context c) (status_result c) (status_messages c).

(** Sequencing of effects, in program order. *)
Definition cmd := world -> world.

Definition seq (a b : cmd) : cmd := fun w => b (a w).
Notation "a ;; b" := (seq a b) (at level 61, right associativity).

Definition skip : cmd := fun w => w.

(** ** GLib operations on the world *)

Definition g_mutex_lock (m : GMutex) : cmd := emit (a_lock m).
Definition g_mutex_unlock (m : GMutex) : cmd := emit (a_unlock m).

(** [context->status_result = r]. *)
Definition store_status_result (r : Z) : cmd :=
  fun w => emit (a_set_result r) (set_context (with_status_result r (context w)) w).

(** [g_queue_push_tail (&context->status_messages, s)]. *)
Definition g_queue_push_tail (s : string) : cmd :=
  fun w => emit (a_queue_push s)
             (set_context (with_status_messages (status_messages (context w) ++ [s]) (context w)) w).

(** [g_queue_is_empty (&context->status_messages)]. *)
Definition g_queue_is_empty (w : world) : bool :=
  match status_messages (context w) with
  | [] => true
  | _ :: _ => false
  end.

(** [g_main_loop_quit (context->mainloop)]. *)
Definition g_main_loop_quit : cmd :=
  fun w => emit a_loop_quit (set_context (with_running false (context w)) w).

(** The function behind a callback field. *)
Definition callback_of (f : callback) (c : install_context) : option GSourceFunc :=
  match f with
  | cb_notify_event => notify_event c
  | cb_notify_complete => notify_complete c
  end.

(** A direct call [f (context)] of one of the context's callbacks. *)
Definition call (f : callback) : cmd :=
  fun w =>
    match callback_of f (context w) with
    | None => w
    | Some g =>
        let c := context w in
        let '(r, q) := g (status_result c, status_messages c) in
        set_context (with_status_messages q (with_status_result r c)) (emit (a_call f) w)
    end.

(** [g_main_context_is_owner (target)]. *)
Definition g_main_context_is_owner (target : GMainContext) (w : world) : bool :=
  match owned w with
  | Some c => Nat.eqb c target
  | None => false
  end.

(** [target] is the thread-default context of the calling thread: the
    top of its stack, or the global default context when the stack is
    empty. *)
Definition is_thread_default (target : GMainContext) (w : world) : bool :=
  match thread_default w with
  | c :: _ => Nat.eqb c target
  | [] => Nat.eqb 0%nat target
  end.

(** [g_main_context_invoke (target, f, context)], as GLib documents it: a
    direct call when the calling thread owns [target] or has it as its
    thread-default context, an idle source attached to [target]
    otherwise. *)
Definition g_main_context_invoke (target : GMainContext) (f : callback) : cmd :=
  fun w =>
    let w1 := emit (a_invoke target f) w in
    if g_main_context_is_owner target w1 || is_thread_default target w1
    then call f w1
    else emit (a_idle_attach target f) w1.

Definition g_main_context_push_thread_default (c : GMainContext) : cmd :=
  fun w => emit (a_push_thread_default c) (set_thread_default (c :: thread_default w) w).

Definition g_main_context_pop_thread_default (c : GMainContext) : cmd :=
  fun w => emit (a_pop_thread_default c) (set_thread_default (tl (thread_default w)) w).

(** ** The signal handlers *)

(** [invalidated && invalidated[0]]: the array pointer is not [NULL] and
    its first element is not the terminating [NULL]. *)
Definition has_invalidated (invalidated : option (list string)) : bool :=
  match invalidated with
  | Some (_ :: _) => true
  | _ => false
  end.

(** [message[0] != '\0']. *)
Definition nonempty (message : string) : bool :=
  match message with
  | EmptyString => false
  | String _ _ => true
  end.

(** The [if] / [else if] chain of [on_installer_status], lines 53-59. *)
Definition push_status_message (changed : vardict) : cmd :=
  match g_variant_lookup_s changed "Operation" with
  | Some message => g_queue_push_tail message
  | None =>
      match g_variant_lookup_isi changed "Progress" with
      | Some (percentage, message, depth) =>
          g_queue_push_tail (printf_progress percentage message)
      | None =>
          match g_variant_lookup_s changed "LastError" with
          | Some message =>
              if nonempty message
              then g_queue_push_tail (printf_last_error message)
              else skip
          | None => skip
          end
      end
  end.

(** [on_installer_status]: the handler of ["g-properties-changed"]. *)
Definition on_installer_status (changed : vardict)
    (invalidated : option (list string)) : cmd :=
  fun w =>
    if has_invalidated invalidated then
      (g_mutex_lock status_mutex ;;
       store_status_result 2 ;;
       g_mutex_unlock status_mutex ;;
       g_main_loop_quit) w
    else
      match notify_event (context w) with
      | None => w
      | Some _ =>
          let w1 := (g_mutex_lock status_mutex ;;
                     push_status_message changed ;;
                     g_mutex_unlock status_mutex) w in
          if negb (g_queue_is_empty w1)
          then g_main_context_invoke (loop_context (context w1)) cb_notify_event w1
          else w1
      end.

(** [on_installer_completed]: the handler of ["completed"]. *)
Definition on_installer_completed (result : Z) : cmd :=
  g_mutex_lock status_mutex ;;
  store_status_result result ;;
  g_mutex_unlock status_mutex ;;
  (if 0 <=? result then g_main_loop_quit else skip).

(** ** Constructor and destructor *)

(** [install_context_new]: [g_new0] zeroes every field (no bundle, no
    callbacks, no loop, the [NULL] context), the queue is initialised
    empty and the result set to [-2]. *)
Definition install_context_new : install_context :=
  mkContext "" None None (mkLoop 0%nat false) 0%nat (-2) [].

(** The result of running the worker thread: it returned, it was aborted
    by a failed assertion, or it is still waiting in the main loop with no
    signal left to come. *)
Inductive outcome :=
| Returned (w : world)
| Aborted (w : world)
| Waiting (w : world).

(** [install_context_free] for a non-[NULL] context. *)
Definition install_context_free (w : world) : outcome :=
  let w1 := (emit a_free_bundle ;;
             emit (a_mutex_clear status_mutex) ;;
             emit (a_context_unref (loop_context (context w)))) w in
  if negb (0 <=? status_result (context w1)) then
    Aborted (emit (a_assert_failed "status_result >= 0") w1)
  else if negb (g_queue_is_empty w1) then
    Aborted (emit (a_assert_failed "g_queue_is_empty") w1)
  else
    Returned ((emit a_loop_unref ;; emit a_free_context) w1).

(** ** The worker thread *)

(** A D-Bus signal of the RAUC service. *)
Inductive dbus_signal :=
| PropertiesChanged (changed : vardict) (invalidated : option (list string))
| Completed (result : Z).

(** What the worker thread is given from outside. *)
Record environment := mkEnv {
  DBUS_STARTER_BUS_TYPE : option string;   (* [g_getenv], [NULL] as [None] *)
  proxy_created : bool;         (* [r_installer_proxy_new_for_bus_sync] is not [NULL] *)
  status_handler_id : N;        (* [g_signal_connect (.., "g-properties-changed", ..)] *)
  completed_handler_id : N;     (* [g_signal_connect (.., "completed", ..)] *)
  install_accepted : bool;      (* [r_installer_call_install_sync] *)
  signals : list (list dbus_signal)
    (* emitted by the service after the call: for each iteration of the
       main loop, the signals that are ready in it *)
}.

(** The handler a signal is dispatched to. *)
Definition dispatch (s : dbus_signal) : cmd :=
  match s with
  | PropertiesChanged changed invalidated => on_installer_status changed invalidated
  | Completed result => on_installer_completed result
  end.

(** One iteration of the main loop: every signal that is ready is
    dispatched, in order.  [g_main_loop_quit] does not stop the
    iteration, and both handlers stay connected until line 170, so a
    signal behind the one that quit the loop is handled like any other. *)
Fixpoint dispatch_all (sigs : list dbus_signal) (w : world) : world :=
  match sigs with
  | [] => w
  | s :: sigs' => dispatch_all sigs' (dispatch s w)
  end.

(** The iterations of [g_main_loop_run]: it iterates while [is_running]
    holds, that is until an iteration in which a handler quit the loop.
    The flag tells whether the loop returned; it is [false] when the
    signals run out while the loop is still running. *)
Fixpoint iterate (passes : list (list dbus_signal)) (w : world) : world * bool :=
  match passes with
  | [] => (w, false)
  | pass :: passes' =>
      let w1 := dispatch_all pass w in
      if is_running (mainloop (context w1))
      then iterate passes' w1
      else (w1, true)
  end.

(** [g_main_loop_run (context->mainloop)]: sets [is_running] and iterates;
    the thread owns the loop's context while it does. *)
Definition g_main_loop_run (passes : list (list dbus_signal)) (w : world) : world * bool :=
  let l := loop_ctx (mainloop (context w)) in
  let w1 := emit (a_loop_run l) (set_owned (Some l) (set_context (with_running true (context w)) w)) in
  let '(w2, quit) := iterate passes w1 in
  (set_owned (owned w) w2, quit).

(** The code after the label [out_loop]. *)
Definition out_loop (w : world) : outcome :=
  install_context_free
    ((emit a_signals_disconnect ;;
      call cb_notify_complete ;;
      g_main_context_pop_thread_default (loop_context (context w))) w).

Definition bus_type (e : environment) : GBusType :=
  match DBUS_STARTER_BUS_TYPE e with
  | Some v => if String.eqb v "session" then G_BUS_TYPE_SESSION else G_BUS_TYPE_SYSTEM
  | None => G_BUS_TYPE_SYSTEM
  end.

(** [install_loop_thread] up to the label [out_loop]: the flag is [true]
    when control reaches the label (by a [goto] or because the main loop
    returned), [false] when the thread is still in [g_main_loop_run]. *)
Definition connect_and_wait (e : environment) (w : world) : world * bool :=
  let w1 := (g_main_context_push_thread_default (loop_context (context w)) ;;
             emit (a_proxy_new (bus_type e))) w in
  if negb (proxy_created e) then (w1, true)
  else
    let w2 := emit (a_signal_connect "g-properties-changed") w1 in
    if (status_handler_id e <=? 0)%N then (w2, true)
    else
      let w3 := emit (a_signal_connect "completed") w2 in
      if (completed_handler_id e <=? 0)%N then (w3, true)
      else
        let w4 := emit (a_call_install (bundle (context w3))) w3 in
        if negb (install_accepted e) then (w4, true)
        else g_main_loop_run (signals e) w4.

(** [install_loop_thread]. *)
Definition install_loop_thread (e : environment) (w : world) : outcome :=
  let '(w1, reached) := connect_and_wait e w in
  if reached then out_loop w1 else Waiting w1.

(** ** The entry point *)

(** [rauc_install], up to [g_thread_new]: the world the new thread starts
    in.  When the caller makes the call, [n] main contexts have been
    created besides the default one, so the contexts in use are the
    handles [0] to [n] and [g_main_context_new] returns the handle
    [S n]. *)
Definition rauc_install (n : nat) (bundle : string)
    (on_install_notify on_install_complete : option GSourceFunc) : world :=
  let loop_context := S n in
  let c0 := install_context_new in
  let c := mkContext bundle on_install_notify on_install_complete
                     (mkLoop loop_context false) loop_context 2 (status_messages c0) in
  mkWorld c None [] (S n) [a_set_result (status_result c0); a_set_result 2; a_thread_new].

(** A whole session: [rauc_install] and the thread it starts. *)
Definition session (n : nat) (bundle : string)
    (on_install_notify on_install_complete : option GSourceFunc)
    (e : environment) : outcome :=
  install_loop_thread e (rauc_install n bundle on_install_notify on_install_complete).

Definition returned (o : outcome) : bool :=
  match o with
  | Returned _ => true
  | _ => false
  end.

Definition aborted (o : outcome) : bool :=
  match o with
  | Aborted _ => true
  | _ => false
  end.

Definition waiting (o : outcome) : bool :=
  match o with
  | Waiting _ => true
  | _ => false
  end.

Definition final (o : outcome) : world :=
  match o with
  | Returned w | Aborted w | Waiting w => w
  end.

(** ** Reading a progress text back *)

(** The text before the first ['%'] and the text after it. *)
Fixpoint split_percent (s : string) : option (string * string) :=
  match s with
  | EmptyString => None
  | String c s' =>
      if Ascii.eqb c "%" then Some (EmptyString, s')
      else match split_percent s' with
           | Some (a, b) => Some (String c a, b)
           | None => None
           end
  end.

Fixpoint skip_spaces (s : string) : string :=
  match s with
  | EmptyString => EmptyString
  | String c s' => if Ascii.eqb c " " then skip_spaces s' else s
  end.

(** The inverse of the format ["%3d%% %s"]. *)
Definition scan_progress (s : string) : option (Z * string) :=
  match split_percent s with
  | Some (num, String c message) =>
      if Ascii.eqb c " " then
        match NilZero.int_of_string (skip_spaces num) with
        | Some d => Some (Z.of_int d, message)
        | None => None
        end
      else None
  | _ => None
  end.

(** Neither ['%'] nor a blank. *)
Definition plain (c : ascii) : bool :=
  negb (Ascii.eqb c "%") && negb (Ascii.eqb c " ").

Fixpoint all_plain (s : string) : bool :=
  match s with
  | EmptyString => true
  | String c s' => plain c && all_plain s'
  end.

(** ** The event records of the specification *)

Inductive EventRecord :=
| OperationChanged (name : string)
| ProgressChanged (percent : Z) (message : string) (depth : Z)
| LastError (message : string).

(** The classification in the words of the specification: the operation
    name first, else the progress triple, else a non-empty error message,
    else nothing. *)
Definition classify_spec (changed : vardict) : option EventRecord :=
  match g_variant_lookup_s changed "Operation" with
  | Some name => Some (OperationChanged name)
  | None =>
      match g_variant_lookup_isi changed "Progress" with
      | Some (percent, message, depth) => Some (ProgressChanged percent message depth)
      | None =>
          match g_variant_lookup_s changed "LastError" with
          | Some EmptyString => None
          | Some message => Some (LastError message)
          | None => None
          end
      end
  end.

(** The queue holds strings: how each record is written there. *)
Definition queued_text (r : EventRecord) : string :=
  match r with
  | OperationChanged name => name
  | ProgressChanged percent message _ => printf_progress percent message
  | LastError message => printf_last_error message
  end.

Definition records_of (o : option EventRecord) : list string :=
  match o with
  | Some r => [queued_text r]
  | None => []
  end.

(** ** Reading a trace *)

(** The strings pushed to the queue. *)
Fixpoint pushed (l : list action) : list string :=
  match l with
  | [] => []
  | a_queue_push s :: l' => s :: pushed l'
  | _ :: l' => pushed l'
  end.

(** The values stored in [status_result]. *)
Fixpoint results_written (l : list action) : list Z :=
  match l with
  | [] => []
  | a_set_result r :: l' => r :: results_written l'
  | _ :: l' => results_written l'
  end.


Definition is_complete_call (a : action) : bool :=
  match a with
  | a_call cb_notify_complete => true
  | _ => false
  end.

(** The actions that give up a resource of the session. *)
Definition is_release (a : action) : bool :=
  match a with
  | a_pop_thread_default _ | a_free_bundle | a_mutex_clear _
  | a_context_unref _ | a_loop_unref | a_free_context => true
  | _ => false
  end.

(** The actions of event delivery: a push, a delivery request, a call of
    the on-event callback. *)
Definition is_delivery (a : action) : bool :=
  match a with
  | a_queue_push _ | a_invoke _ _ | a_idle_attach _ _ | a_call cb_notify_event => true
  | _ => false
  end.

Definition is_loop_run (a : action) : bool :=
  match a with
  | a_loop_run _ => true
  | _ => false
  end.

(** The actions the two signal handlers can perform. *)
Definition handler_action (a : action) : bool :=
  match a with
  | a_lock _ | a_unlock _ | a_set_result _ | a_queue_push _ | a_loop_quit
  | a_invoke _ cb_notify_event | a_call cb_notify_event
  | a_idle_attach _ cb_notify_event => true
  | _ => false
  end.

(** The actions of [connect_and_wait] outside the handlers. *)
Definition setup_action (a : action) : bool :=
  match a with
  | a_push_thread_default _ | a_proxy_new _ | a_signal_connect _
  | a_call_install _ | a_loop_run _ => true
  | _ => false
  end.

(** The actions of [install_context_free]. *)
Definition teardown_action (a : action) : bool :=
  match a with
  | a_free_bundle | a_mutex_clear _ | a_context_unref _ | a_assert_failed _
  | a_loop_unref | a_free_context => true
  | _ => false
  end.

(** Every store to [status_result] and every push to the queue happens
    while [status_mutex] is held; [held] tells whether it is held when the
    trace starts. *)
Fixpoint guarded (held : bool) (l : list action) : bool :=
  match l with
  | [] => negb held
  | a_lock status_mutex :: l' => negb held && guarded true l'
  | a_unlock status_mutex :: l' => held && guarded false l'
  | a_set_result _ :: l' => held && guarded held l'
  | a_queue_push _ :: l' => held && guarded held l'
  | _ :: l' => guarded held l'
  end.

(** ** Kinds of runs *)

(** The signal ends the wait: a disconnect, or a completion code that is
    not negative. *)
Definition ends_wait (s : dbus_signal) : bool :=
  match s with
  | PropertiesChanged _ invalidated => has_invalidated invalidated
  | Completed result => 0 <=? result
  end.

(** The proxy cannot be created, a subscription fails, or the install call
    is rejected. *)
Definition setup_fails (e : environment) : bool :=
  negb (proxy_created e)
  || (status_handler_id e <=? 0)%N
  || (completed_handler_id e <=? 0)%N
  || negb (install_accepted e).

(** The run ends: the setup fails, or the service sends a signal that ends
    the wait. *)
Definition run_ends (e : environment) : bool :=
  setup_fails e || existsb (existsb ends_wait) (signals e).

(** The signals the main loop dispatches: those of every iteration up to
    and including the first in which a signal ends the wait. *)
Fixpoint dispatched (passes : list (list dbus_signal)) : list dbus_signal :=
  match passes with
  | [] => []
  | pass :: passes' =>
      pass ++ (if existsb ends_wait pass then [] else dispatched passes')
  end.

(** The value a signal makes its handler store in [status_result]. *)
Definition write_of (s : dbus_signal) : list Z :=
  match s with
  | PropertiesChanged _ invalidated => if has_invalidated invalidated then [2] else []
  | Completed result => [result]
  end.

(** ** Assumptions on the caller's callbacks *)

(** The on-event callback empties the queue each time it runs. *)
Definition drains (f : GSourceFunc) : Prop :=
  forall r q, snd (f (r, q)) = [].


(** The callback does not store to [status_result]. *)
Definition keeps_result (f : GSourceFunc) : Prop :=
  forall r q, fst (f (r, q)) = r.


(** A property of the function behind an optional callback. *)
Definition when_set (P : GSourceFunc -> Prop) (o : option GSourceFunc) : Prop :=
  match o with
  | Some f => P f
  | None => True
  end.

(** ** Sample data *)

(** An on-event callback that pops every message and an on-complete
    callback that only reads. *)
Definition drain_all : GSourceFunc := fun s => (fst s, []).
Definition read_only : GSourceFunc := fun s => s.

Definition progress_checking : vardict := [("Progress", GV_isi 10 "checking" 1)].
Definition operation_installing : vardict := [("Operation", GV_s "installing")].

(** A progress notification of depth 1. *)
Definition progress (percent : Z) (message : string) : dbus_signal :=
  PropertiesChanged [("Progress", GV_isi percent message 1)] None.


(** A service that answers every call and then sends the signals of
    [passes], those of one list ready in the same iteration of the loop. *)
Definition service_passes (passes : list (list dbus_signal)) : environment :=
  mkEnv None true 1%N 2%N true passes.

(** A service that answers every call and then sends [sigs], each in an
    iteration of its own. *)
Definition service (sigs : list dbus_signal) : environment :=
  service_passes (map (fun s => [s]) sigs).

(** ** The handlers as trace producers *)

(** The fields of the world no handler writes. *)
Definition fixed (w : world) :=
  (bundle (context w), notify_event (context w), notify_complete (context w),
   loop_ctx (mainloop (context w)), loop_context (context w),
   owned w, thread_default w, allocated w).

(** [g_main_context_invoke] on [target] is a direct call in this world. *)
Definition direct (target : GMainContext) (w : world) : bool :=
  g_main_context_is_owner target w || is_thread_default target w.

(** What a delivery request for the on-event callback adds to the trace. *)
Definition invoke_trace (w : world) : list action :=
  let target := loop_context (context w) in
  [a_invoke target cb_notify_event;
   if direct target w then a_call cb_notify_event
   else a_idle_attach target cb_notify_event].

(** What the handler of a signal adds to the trace when it runs in [w]. *)
Definition handler_trace (s : dbus_signal) (w : world) : list action :=
  match s with
  | Completed result =>
      [a_lock status_mutex; a_set_result result; a_unlock status_mutex]
      ++ (if 0 <=? result then [a_loop_quit] else [])
  | PropertiesChanged changed invalidated =>
      if has_invalidated invalidated then
        [a_lock status_mutex; a_set_result 2; a_unlock status_mutex; a_loop_quit]
      else
        match notify_event (context w) with
        | None => []
        | Some _ =>
            let new := records_of (classify_spec changed) in
            [a_lock status_mutex] ++ map a_queue_push new ++ [a_unlock status_mutex]
            ++ match status_messages (context w) ++ new with
               | [] => []
               | _ :: _ => invoke_trace w
               end
        end
  end.

(** A delivery request goes to [c] and is served by a direct call. *)
Definition stays_on (c : GMainContext) (a : action) : bool :=
  match a with
  | a_invoke t _ => Nat.eqb t c
  | a_idle_attach _ _ => false
  | _ => true
  end.

(** The world after the setup steps that were taken. *)
Definition after_setup (w : world) (l : list action) : world :=
  mkWorld (context w) (owned w) (loop_context (context w) :: thread_default w)
          (allocated w) (trace w ++ l).

(** The shared fields as the on-complete callback leaves them. *)
Definition completed_with (w : world) : shared :=
  let c := context w in
  match notify_complete c with
  | Some f => f (status_result c, status_messages c)
  | None => (status_result c, status_messages c)
  end.

(** Neither a call of on-complete nor the release of a resource. *)
Definition before_completion (a : action) : bool :=
  negb (is_complete_call a) && negb (is_release a).

(** ** The parts of a session's trace *)

(** The setup steps the environment lets [install_loop_thread] take, for
    the loop context [lc] and the bundle [b]: each step is taken only when
    the one before it succeeded. *)
Definition setup_steps (e : environment) (lc : GMainContext) (b : string) : list action :=
  a_push_thread_default lc :: a_proxy_new (bus_type e) ::
  (if negb (proxy_created e) then []
   else a_signal_connect "g-properties-changed" ::
        (if (status_handler_id e <=? 0)%N then []
         else a_signal_connect "completed" ::
              (if (completed_handler_id e <=? 0)%N then []
               else [a_call_install b]))).

(** The world in which the main loop starts to iterate, when the setup
    succeeded in [w]. *)
Definition loop_world (e : environment) (w : world) : world :=
  let w4 := after_setup w (setup_steps e (loop_context (context w)) (bundle (context w))) in
  let l := loop_ctx (mainloop (context w4)) in
  emit (a_loop_run l) (set_owned (Some l) (set_context (with_running true (context w4)) w4)).

(** What the handlers add to the trace when [sigs] are dispatched one
    after the other, starting in [w]. *)
Fixpoint loop_trace (sigs : list dbus_signal) (w : world) : list action :=
  match sigs with
  | [] => []
  | s :: sigs' => handler_trace s w ++ loop_trace sigs' (dispatch s w)
  end.

(** The texts a signal makes the handler push when an on-event callback
    is registered. *)
Definition texts_of (s : dbus_signal) : list string :=
  match s with
  | PropertiesChanged changed invalidated =>
      if has_invalidated invalidated then [] else records_of (classify_spec changed)
  | Completed _ => []
  end.

(** The delivery of one text by a direct call: the push, the request on
    [target], the call. *)
Definition delivery_of (target : GMainContext) (m : string) : list action :=
  [a_queue_push m; a_invoke target cb_notify_event; a_call cb_notify_event].

(** No delivery request and no callback call happens while [status_mutex]
    is held; [held] tells whether it is held when the trace starts. *)
Fixpoint calls_unlocked (held : bool) (l : list action) : bool :=
  match l with
  | [] => true
  | a_lock _ :: l' => calls_unlocked true l'
  | a_unlock _ :: l' => calls_unlocked false l'
  | a_invoke _ _ :: l' => negb held && calls_unlocked held l'
  | a_call _ :: l' => negb held && calls_unlocked held l'
  | _ :: l' => calls_unlocked held l'
  end.

Definition is_proxy_new (a : action) : bool :=
  match a with
  | a_proxy_new _ => true
  | _ => false
  end.

Definition is_install_call (a : action) : bool :=
  match a with
  | a_call_install _ => true
  | _ => false
  end.

Definition is_disconnect (a : action) : bool :=
  match a with
  | a_signals_disconnect => true
  | _ => false
  end.

(** The actions of [install_context_free] when both assertions hold. *)
Definition free_actions (lc : GMainContext) : list action :=
  [a_free_bundle; a_mutex_clear status_mutex; a_context_unref lc;
   a_loop_unref; a_free_context].

(** The code after [out_loop] up to the call of [install_context_free]. *)
Definition leave_actions (cb : option GSourceFunc) (lc : GMainContext) : list action :=
  a_signals_disconnect
    :: match cb with
       | Some _ => [a_call cb_notify_complete]
       | None => []
       end
    ++ [a_pop_thread_default lc].

(** The loop part of a thread's trace. *)
Definition loop_part (e : environment) (w : world) : list action :=
  if setup_fails e then []
  else a_loop_run (loop_ctx (mainloop (context w)))
         :: loop_trace (dispatched (signals e)) (loop_world e w).

(** The actions of the thread outside the handlers. *)
Definition outside_handlers (a : action) : bool :=
  setup_action a || teardown_action a || is_release a || is_disconnect a
  || is_complete_call a.

(** * Properties *)

(** ** Basic facts *)

(** The chain of lookups pushes the text of the record the specification
    chooses, and nothing else. *)
Lemma push_status_message_spec changed w :
  push_status_message changed w =
  match classify_spec changed with
  | Some r => g_queue_push_tail (queued_text r) w
  | None => w
  end.
Proof.
  unfold push_status_message, classify_spec.
  destruct (g_variant_lookup_s changed "Operation") as [name|]; [reflexivity|].
  destruct (g_variant_lookup_isi changed "Progress") as [[[p m] d]|]; [reflexivity|].
  destruct (g_variant_lookup_s changed "LastError") as [[|c m]|]; reflexivity.
Qed.

(** ** The progress text can be read back *)

Lemma all_plain_uint d : all_plain (NilEmpty.string_of_uint d) = true.
Proof. induction d; cbn; auto. Qed.

Lemma all_plain_gint32 i : all_plain (string_of_gint32 i) = true.
Proof.
  unfold string_of_gint32.
  destruct (Z.to_int i) as [d|d]; cbn; destruct d; cbn; auto using all_plain_uint.
Qed.

Lemma split_percent_plain s rest :
  all_plain s = true ->
  split_percent (s ++ String "%" rest)%string = Some (s, rest).
Proof.
  induction s as [|c s IH]; cbn; [reflexivity|].
  intros H. apply andb_true_iff in H. destruct H as [Hc Hs].
  unfold plain in Hc. apply andb_true_iff in Hc. destruct Hc as [Hc _].
  apply negb_true_iff in Hc. now rewrite Hc, (IH Hs).
Qed.

Lemma split_percent_spaces k s rest :
  all_plain s = true ->
  split_percent ((spaces k ++ s) ++ String "%" rest)%string
  = Some ((spaces k ++ s)%string, rest).
Proof.
  intros Hs. induction k as [|k IH]; cbn.
  - now apply split_percent_plain.
  - now rewrite IH.
Qed.

Lemma skip_spaces_plain k s :
  all_plain s = true -> skip_spaces (spaces k ++ s)%string = s.
Proof.
  intros Hs. induction k as [|k IH]; cbn; [|exact IH].
  destruct s as [|c s]; cbn; [reflexivity|].
  cbn in Hs. apply andb_true_iff in Hs. destruct Hs as [Hc _].
  unfold plain in Hc. apply andb_true_iff in Hc. destruct Hc as [_ Hc].
  apply negb_true_iff in Hc. now rewrite Hc.
Qed.

Lemma int_of_string_gint32 i :
  NilZero.int_of_string (string_of_gint32 i) = Some (Z.to_int i).
Proof.
  unfold string_of_gint32. apply NilZero.isi.
  - destruct i; cbn; try discriminate.
    intros [= H]. now apply (Unsigned.to_uint_nonnil p).
  - destruct i; cbn; try discriminate.
    intros [= H]. now apply (Unsigned.to_uint_nonnil p).
Qed.

(** [scan_progress] inverts [printf_progress], for every percentage and
    every message. *)
Lemma scan_printf_progress percentage message :
  scan_progress (printf_progress percentage message) = Some (percentage, message).
Proof.
  unfold scan_progress, printf_progress, printf_3d.
  assert (Hp := all_plain_gint32 percentage).
  change ("% " ++ message)%string with (String "%" (String " " message)).
  rewrite split_percent_spaces by exact Hp.
  rewrite Ascii.eqb_refl, skip_spaces_plain by exact Hp.
  rewrite int_of_string_gint32. now rewrite DecimalZ.of_to.
Qed.

Ltac flatten_trace :=
  cbn [trace emit set_context set_owned set_thread_default context owned
       thread_default allocated];
  repeat rewrite <- app_assoc; cbn [Datatypes.app].

Ltac unfold_cmds :=
  unfold invoke_trace in *;
  unfold seq, skip, g_mutex_lock, g_mutex_unlock, store_status_result,
    g_queue_push_tail, g_main_loop_quit, g_main_context_invoke, call,
    g_queue_is_empty, direct, g_main_context_is_owner, is_thread_default,
    emit, set_context, set_owned, set_thread_default,
    with_status_messages, with_status_result, with_running in *.

Ltac list_norm := repeat (progress (cbn [Datatypes.app]) || rewrite <- app_assoc).

Ltac open_world w :=
  let c := fresh "c" in
  destruct w as [c ? ? ? ?]; destruct c as [? ? ? [? ?] ? ? ?].

Ltac destruct_callback f :=
  match goal with
  | |- context [f ?x] => destruct (f x) as [? ?]
  end.

(** The locked section of [on_installer_status]. *)
Lemma locked_push changed w :
  (g_mutex_lock status_mutex ;;
   push_status_message changed ;;
   g_mutex_unlock status_mutex) w =
  let new := records_of (classify_spec changed) in
  mkWorld (with_status_messages (status_messages (context w) ++ new) (context w))
          (owned w) (thread_default w) (allocated w)
          (trace w ++ [a_lock status_mutex] ++ map a_queue_push new
                   ++ [a_unlock status_mutex]).
Proof.
  unfold seq. rewrite push_status_message_spec.
  open_world w.
  destruct (classify_spec changed) as [r|]; unfold_cmds; cbn.
  - now list_norm.
  - list_norm. now rewrite app_nil_r.
Qed.

(** The trace of a handler is the trace it started from, followed by
    [handler_trace]. *)
Lemma dispatch_trace s w : trace (dispatch s w) = trace w ++ handler_trace s w.
Proof.
  destruct s as [changed invalidated | result]; cbn [dispatch handler_trace].
  - unfold on_installer_status.
    destruct (has_invalidated invalidated).
    + unfold_cmds. flatten_trace. reflexivity.
    + destruct (notify_event (context w)) as [f|] eqn:Hf.
      * rewrite locked_push. cbv zeta.
        set (new := records_of (classify_spec changed)).
        open_world w. cbn in Hf. subst.
        unfold_cmds. cbn.
        destruct (status_messages0 ++ new) as [|m q]; cbn.
        -- now list_norm.
        -- destruct (_ || _); cbn.
           ++ destruct_callback f. cbn. now list_norm.
           ++ now list_norm.
      * now rewrite app_nil_r.
  - unfold on_installer_completed. unfold_cmds.
    destruct (0 <=? result); flatten_trace; reflexivity.
Qed.

Lemma results_written_app l1 l2 :
  results_written (l1 ++ l2) = results_written l1 ++ results_written l2.
Proof.
  induction l1 as [|a l1 IH]; [reflexivity|].
  destruct a; cbn; rewrite IH; reflexivity.
Qed.

Lemma pushed_app l1 l2 : pushed (l1 ++ l2) = pushed l1 ++ pushed l2.
Proof.
  induction l1 as [|a l1 IH]; [reflexivity|].
  destruct a; cbn; rewrite IH; reflexivity.
Qed.

Lemma pushed_map_push l : pushed (map a_queue_push l) = l.
Proof. induction l as [|s l IH]; cbn; congruence. Qed.

Lemma results_written_map_push l : results_written (map a_queue_push l) = [].
Proof. induction l as [|s l IH]; cbn; congruence. Qed.

Lemma forallb_map_push (P : action -> bool) l :
  (forall s, P (a_queue_push s) = true) ->
  forallb P (map a_queue_push l) = true.
Proof.
  intros HP. induction l as [|s l IH]; cbn; [reflexivity|].
  now rewrite HP, IH.
Qed.

(** ** What a handler adds to the trace *)

Lemma handler_trace_actions s w : forallb handler_action (handler_trace s w) = true.
Proof.
  destruct s as [changed invalidated | result]; cbn [handler_trace].
  - destruct (has_invalidated invalidated); [reflexivity|].
    destruct (notify_event (context w)); [|reflexivity].
    cbv zeta. rewrite !forallb_app, forallb_map_push by reflexivity.
    destruct (status_messages (context w) ++ _); [reflexivity|].
    unfold invoke_trace. now destruct (direct _ _).
  - now destruct (0 <=? result).
Qed.

Lemma handler_trace_writes s w : results_written (handler_trace s w) = write_of s.
Proof.
  destruct s as [changed invalidated | result]; cbn [handler_trace write_of].
  - destruct (has_invalidated invalidated); [reflexivity|].
    destruct (notify_event (context w)); [|reflexivity].
    cbv zeta. rewrite !results_written_app, results_written_map_push.
    destruct (status_messages (context w) ++ _); [reflexivity|].
    unfold invoke_trace. now destruct (direct _ _).
  - now destruct (0 <=? result).
Qed.

Lemma handler_trace_pushed s w :
  pushed (handler_trace s w) =
  match s with
  | Completed _ => []
  | PropertiesChanged changed invalidated =>
      if has_invalidated invalidated then []
      else match notify_event (context w) with
           | Some _ => records_of (classify_spec changed)
           | None => []
           end
  end.
Proof.
  destruct s as [changed invalidated | result]; cbn [handler_trace].
  - destruct (has_invalidated invalidated); [reflexivity|].
    destruct (notify_event (context w)); [|reflexivity].
    cbv zeta. rewrite !pushed_app, pushed_map_push.
    destruct (status_messages (context w) ++ _); cbn; [now rewrite app_nil_r|].
    destruct (direct _ _); cbn; now rewrite app_nil_r.
  - now destruct (0 <=? result).
Qed.

Lemma guarded_pushes l rest :
  guarded true (map a_queue_push l ++ rest) = guarded true rest.
Proof. induction l as [|s l IH]; cbn; [reflexivity|exact IH]. Qed.

Lemma handler_trace_guarded s w : guarded false (handler_trace s w) = true.
Proof.
  destruct s as [changed invalidated | result]; cbn [handler_trace].
  - destruct (has_invalidated invalidated); [reflexivity|].
    destruct (notify_event (context w)); [|reflexivity].
    cbv zeta. cbn [Datatypes.app guarded negb andb]. rewrite guarded_pushes.
    destruct (status_messages (context w) ++ _); [reflexivity|].
    unfold invoke_trace. now destruct (direct _ _).
  - now destruct (0 <=? result).
Qed.

Lemma handler_trace_stays s w :
  direct (loop_context (context w)) w = true ->
  forallb (stays_on (loop_context (context w))) (handler_trace s w) = true.
Proof.
  intros Hd.
  destruct s as [changed invalidated | result]; cbn [handler_trace].
  - destruct (has_invalidated invalidated); [reflexivity|].
    destruct (notify_event (context w)); [|reflexivity].
    cbv zeta. rewrite !forallb_app, forallb_map_push by reflexivity.
    destruct (status_messages (context w) ++ _); [reflexivity|].
    unfold invoke_trace. rewrite Hd. cbn. now rewrite Nat.eqb_refl.
  - now destruct (0 <=? result).
Qed.

(** ** What a handler does to the world *)

Lemma dispatch_fixed s w : fixed (dispatch s w) = fixed w.
Proof.
  destruct s as [changed invalidated | result]; cbn [dispatch].
  - unfold on_installer_status.
    destruct (has_invalidated invalidated); [reflexivity|].
    destruct (notify_event (context w)) as [f|] eqn:Hf; [|reflexivity].
    rewrite locked_push. cbv zeta.
    set (new := records_of (classify_spec changed)).
    open_world w. cbn in Hf. subst. unfold_cmds. cbn.
    destruct (status_messages0 ++ new) as [|m q]; cbn; [reflexivity|].
    destruct (_ || _); cbn; [|reflexivity].
    destruct_callback f. reflexivity.
  - unfold on_installer_completed. unfold_cmds.
    now destruct (0 <=? result).
Qed.

Lemma dispatch_running s w :
  is_running (mainloop (context (dispatch s w))) =
  if ends_wait s then false else is_running (mainloop (context w)).
Proof.
  destruct s as [changed invalidated | result]; cbn [dispatch ends_wait].
  - unfold on_installer_status.
    destruct (has_invalidated invalidated); [reflexivity|].
    destruct (notify_event (context w)) as [f|] eqn:Hf; [|reflexivity].
    rewrite locked_push. cbv zeta.
    set (new := records_of (classify_spec changed)).
    open_world w. cbn in Hf. subst. unfold_cmds. cbn.
    destruct (status_messages0 ++ new) as [|m q]; cbn; [reflexivity|].
    destruct (_ || _); cbn; [|reflexivity].
    destruct_callback f. reflexivity.
  - unfold on_installer_completed. unfold_cmds.
    now destruct (0 <=? result).
Qed.


(** With a draining on-event callback that is called directly, a handler
    that finds the queue empty leaves it empty. *)
Lemma dispatch_drained s w :
  when_set drains (notify_event (context w)) ->
  direct (loop_context (context w)) w = true ->
  status_messages (context w) = [] ->
  status_messages (context (dispatch s w)) = [].
Proof.
  intros Hdr Hd Hq.
  destruct s as [changed invalidated | result]; cbn [dispatch].
  - unfold on_installer_status.
    destruct (has_invalidated invalidated); [exact Hq|].
    destruct (notify_event (context w)) as [f|] eqn:Hf; [|exact Hq].
    rewrite locked_push. cbv zeta.
    set (new := records_of (classify_spec changed)).
    cbn in Hdr. open_world w. cbn in Hf, Hq, Hd. subst.
    unfold_cmds. cbn in *.
    destruct new as [|m q]; cbn; [reflexivity|].
    rewrite Hd. cbn.
    specialize (Hdr status_result0 (m :: q)).
    destruct (f _) as [r' q']. exact Hdr.
  - unfold on_installer_completed. unfold_cmds.
    now destruct (0 <=? result).
Qed.

Lemma direct_fixed w w' :
  fixed w' = fixed w ->
  direct (loop_context (context w')) w' = direct (loop_context (context w)) w.
Proof.
  unfold fixed, direct, g_main_context_is_owner, is_thread_default.
  intros [= _ _ _ _ -> -> -> _]. reflexivity.
Qed.

Lemma fixed_notify_event w w' :
  fixed w' = fixed w -> notify_event (context w') = notify_event (context w).
Proof. unfold fixed. now intros [= _ -> _ _ _ _ _ _]. Qed.

Lemma fixed_notify_complete w w' :
  fixed w' = fixed w -> notify_complete (context w') = notify_complete (context w).
Proof. unfold fixed. now intros [= _ _ -> _ _ _ _ _]. Qed.

Lemma fixed_loop_context w w' :
  fixed w' = fixed w -> loop_context (context w') = loop_context (context w).
Proof. unfold fixed. now intros [= _ _ _ _ -> _ _ _]. Qed.

(** ** The main loop *)

Lemma dispatch_all_app sigs1 : forall sigs2 w,
  dispatch_all (sigs1 ++ sigs2) w = dispatch_all sigs2 (dispatch_all sigs1 w).
Proof.
  induction sigs1 as [|s sigs1 IH]; intros sigs2 w; cbn; [reflexivity|apply IH].
Qed.

Lemma dispatch_all_fixed sigs : forall w, fixed (dispatch_all sigs w) = fixed w.
Proof.
  induction sigs as [|s sigs IH]; intros w; cbn [dispatch_all]; [reflexivity|].
  rewrite IH. apply dispatch_fixed.
Qed.

(** Nothing in an iteration sets [is_running] again once a handler has
    cleared it. *)
Lemma dispatch_all_running sigs : forall w,
  is_running (mainloop (context (dispatch_all sigs w))) =
  if existsb ends_wait sigs then false else is_running (mainloop (context w)).
Proof.
  induction sigs as [|s sigs IH]; intros w; cbn [dispatch_all existsb]; [reflexivity|].
  rewrite IH, dispatch_running.
  destruct (ends_wait s); cbn [orb]; [|reflexivity].
  now destruct (existsb ends_wait sigs).
Qed.

Lemma dispatch_all_trace sigs : forall w,
  trace (dispatch_all sigs w) = trace w ++ loop_trace sigs w.
Proof.
  induction sigs as [|s sigs IH]; intros w; cbn [dispatch_all loop_trace].
  - now rewrite app_nil_r.
  - now rewrite IH, dispatch_trace, app_assoc.
Qed.

Lemma loop_trace_actions sigs : forall w,
  forallb handler_action (loop_trace sigs w) = true.
Proof.
  induction sigs as [|s sigs IH]; intros w; cbn [loop_trace]; [reflexivity|].
  now rewrite forallb_app, handler_trace_actions, IH.
Qed.

(** One store per dispatched signal that stores. *)
Lemma loop_trace_writes sigs : forall w,
  results_written (loop_trace sigs w) = flat_map write_of sigs.
Proof.
  induction sigs as [|s sigs IH]; intros w; cbn [loop_trace flat_map]; [reflexivity|].
  now rewrite results_written_app, handler_trace_writes, IH.
Qed.

(** Every delivery request is served on the spot. *)
Lemma loop_trace_stays sigs : forall w,
  direct (loop_context (context w)) w = true ->
  forallb (stays_on (loop_context (context w))) (loop_trace sigs w) = true.
Proof.
  induction sigs as [|s sigs IH]; intros w Hd; cbn [loop_trace]; [reflexivity|].
  rewrite forallb_app, handler_trace_stays by exact Hd.
  assert (Hfx := dispatch_fixed s w).
  rewrite <- (fixed_loop_context _ _ Hfx). apply IH.
  now rewrite (direct_fixed _ _ Hfx).
Qed.

(** With a draining on-event callback the queue is empty after every
    handler, also after those behind the one that quit the loop. *)
Lemma dispatch_all_drained sigs : forall w,
  when_set drains (notify_event (context w)) ->
  direct (loop_context (context w)) w = true ->
  status_messages (context w) = [] ->
  status_messages (context (dispatch_all sigs w)) = [].
Proof.
  induction sigs as [|s sigs IH]; intros w Hdr Hd Hq; cbn [dispatch_all]; [exact Hq|].
  assert (Hfx := dispatch_fixed s w).
  apply IH.
  - now rewrite (fixed_notify_event _ _ Hfx).
  - now rewrite (direct_fixed _ _ Hfx).
  - now apply dispatch_drained.
Qed.

(** With an on-event callback that does not store, a handler leaves in
    [status_result] what it stored, or what was there. *)
Lemma dispatch_result s w :
  when_set keeps_result (notify_event (context w)) ->
  status_result (context (dispatch s w)) =
  last (write_of s) (status_result (context w)).
Proof.
  intros Hk.
  destruct s as [changed invalidated | result]; cbn [dispatch write_of].
  - unfold on_installer_status.
    destruct (has_invalidated invalidated); [reflexivity|].
    destruct (notify_event (context w)) as [f|] eqn:Hf; [|reflexivity].
    rewrite locked_push. cbv zeta.
    set (new := records_of (classify_spec changed)).
    cbn in Hk. open_world w. cbn in Hf. subst. unfold_cmds. cbn.
    destruct (status_messages0 ++ new) as [|m q]; cbn; [reflexivity|].
    destruct (_ || _); cbn; [|reflexivity].
    specialize (Hk status_result0 (m :: q)).
    destruct (f _) as [r' q']. exact Hk.
  - unfold on_installer_completed. unfold_cmds. now destruct (0 <=? result).
Qed.

Lemma last_cons_default {A} (l : list A) : forall a d d',
  last (a :: l) d = last (a :: l) d'.
Proof.
  induction l as [|b l IH]; intros a d d'; [reflexivity|].
  change (last (b :: l) d = last (b :: l) d'). apply IH.
Qed.

Lemma last_app_default {A} (l1 l2 : list A) d :
  last (l1 ++ l2) d = last l2 (last l1 d).
Proof.
  revert d. induction l1 as [|a l1 IH]; intros d; [reflexivity|].
  destruct l1 as [|b l1].
  - destruct l2 as [|c l2]; [reflexivity|].
    change (last (c :: l2) d = last (c :: l2) a). apply last_cons_default.
  - change (last ((b :: l1) ++ l2) d = last l2 (last (b :: l1) d)). apply IH.
Qed.

Lemma dispatch_all_result sigs : forall w,
  when_set keeps_result (notify_event (context w)) ->
  status_result (context (dispatch_all sigs w)) =
  last (flat_map write_of sigs) (status_result (context w)).
Proof.
  induction sigs as [|s sigs IH]; intros w Hk; cbn [dispatch_all flat_map]; [reflexivity|].
  rewrite IH by now rewrite (fixed_notify_event _ _ (dispatch_fixed s w)).
  now rewrite (dispatch_result s w Hk), last_app_default.
Qed.



(** The loop dispatches the signals of its iterations up to the one in
    which a handler quit, and returns exactly when there is one. *)
Lemma iterate_dispatched passes : forall w,
  is_running (mainloop (context w)) = true ->
  iterate passes w =
  (dispatch_all (dispatched passes) w, existsb (existsb ends_wait) passes).
Proof.
  induction passes as [|pass passes IH]; intros w Hrun;
    cbn [iterate dispatched existsb]; [reflexivity|].
  rewrite dispatch_all_running, Hrun.
  destruct (existsb ends_wait pass) eqn:Hp; cbn [orb].
  - now rewrite app_nil_r.
  - rewrite IH by now rewrite dispatch_all_running, Hp.
    now rewrite dispatch_all_app.
Qed.

(** The world in which [g_main_loop_run] starts to iterate. *)
Lemma g_main_loop_run_unfold sigs w :
  let l := loop_ctx (mainloop (context w)) in
  let w1 := emit (a_loop_run l)
              (set_owned (Some l) (set_context (with_running true (context w)) w)) in
  g_main_loop_run sigs w =
  (set_owned (owned w) (fst (iterate sigs w1)), snd (iterate sigs w1)).
Proof.
  cbv zeta. unfold g_main_loop_run. now destruct (iterate _ _).
Qed.

Lemma g_main_loop_run_spec sigs w :
  is_thread_default (loop_context (context w)) w = true ->
  let r := g_main_loop_run sigs w in
  let l0 := loop_ctx (mainloop (context w)) in
  let w1 := emit (a_loop_run l0)
              (set_owned (Some l0) (set_context (with_running true (context w)) w)) in
  snd r = existsb (existsb ends_wait) sigs /\
  fixed (fst r) = fixed w /\
  (exists l,
     trace (fst r) = trace w ++ a_loop_run (loop_ctx (mainloop (context w))) :: l /\
     forallb handler_action l = true /\
     forallb (stays_on (loop_context (context w))) l = true /\
     results_written l = flat_map write_of (dispatched sigs)) /\
  context (fst r) = context (dispatch_all (dispatched sigs) w1) /\
  (when_set drains (notify_event (context w)) ->
   status_messages (context w) = [] ->
   status_messages (context (fst r)) = []).
Proof.
  intros Htd. cbv zeta. rewrite g_main_loop_run_unfold. cbv zeta.
  set (w1 := emit _ _).
  assert (Hrun : is_running (mainloop (context w1)) = true) by reflexivity.
  assert (Hd : direct (loop_context (context w1)) w1 = true).
  { unfold direct. apply orb_true_iff. right. exact Htd. }
  rewrite (iterate_dispatched sigs w1 Hrun). cbn [fst snd].
  split; [reflexivity|].
  split.
  { assert (Hf := dispatch_all_fixed (dispatched sigs) w1). revert Hf.
    generalize (dispatch_all (dispatched sigs) w1). intros w2.
    unfold fixed. subst w1. open_world w. open_world w2. cbn.
    intros [= -> -> -> -> -> _ -> ->]. reflexivity. }
  split.
  { exists (loop_trace (dispatched sigs) w1).
    cbn [set_owned trace]. rewrite dispatch_all_trace. subst w1. cbn [trace emit].
    rewrite <- app_assoc.
    split; [reflexivity|]. split; [apply loop_trace_actions|].
    split; [|apply loop_trace_writes].
    apply (loop_trace_stays (dispatched sigs) _ Hd). }
  split; [reflexivity|].
  intros Hdr Hq. apply (dispatch_all_drained (dispatched sigs) w1 Hdr Hd Hq).
Qed.

(** ** The worker thread *)

(** Setup failure: control goes to [out_loop] with the context untouched
    and the main loop never run. *)
Lemma connect_and_wait_failed e w :
  setup_fails e = true ->
  exists l,
    connect_and_wait e w = (after_setup w l, true) /\
    forallb setup_action l = true /\
    existsb is_loop_run l = false.
Proof.
  unfold setup_fails, connect_and_wait, after_setup. intros Hf.
  set (lc := loop_context (context w)).
  destruct (proxy_created e); cbn [negb].
  - destruct (status_handler_id e <=? 0)%N.
    + exists [a_push_thread_default lc; a_proxy_new (bus_type e);
              a_signal_connect "g-properties-changed"].
      unfold_cmds. cbn. list_norm. auto.
    + destruct (completed_handler_id e <=? 0)%N.
      * exists [a_push_thread_default lc; a_proxy_new (bus_type e);
                a_signal_connect "g-properties-changed";
                a_signal_connect "completed"].
        unfold_cmds. cbn. list_norm. auto.
      * destruct (install_accepted e); [discriminate|]. cbn [negb].
        exists [a_push_thread_default lc; a_proxy_new (bus_type e);
                a_signal_connect "g-properties-changed";
                a_signal_connect "completed";
                a_call_install (bundle (context w))].
        unfold_cmds. cbn. list_norm. auto.
  - exists [a_push_thread_default lc; a_proxy_new (bus_type e)].
    unfold_cmds. cbn. list_norm. auto.
Qed.

(** Setup success: all four steps are taken and the main loop runs. *)
Lemma connect_and_wait_ok e w :
  setup_fails e = false ->
  connect_and_wait e w =
  g_main_loop_run (signals e)
    (after_setup w [a_push_thread_default (loop_context (context w));
                    a_proxy_new (bus_type e);
                    a_signal_connect "g-properties-changed";
                    a_signal_connect "completed";
                    a_call_install (bundle (context w))]).
Proof.
  unfold setup_fails, connect_and_wait, after_setup. intros Hf.
  apply orb_false_iff in Hf. destruct Hf as [Hf H4].
  apply orb_false_iff in Hf. destruct Hf as [Hf H3].
  apply orb_false_iff in Hf. destruct Hf as [H1 H2].
  rewrite H1, H2, H3, H4. unfold_cmds. cbn. list_norm. reflexivity.
Qed.

(** Whatever the environment: control reaches [out_loop] exactly when the
    run ends; the immutable fields stay; the trace grows by setup and
    handler actions, with every delivery request served on the spot. *)
Lemma connect_and_wait_spec e w :
  let r := connect_and_wait e w in
  snd r = run_ends e /\
  fixed (fst r) = fixed (after_setup w []) /\
  exists l,
    trace (fst r) = trace w ++ l /\
    forallb (fun a => setup_action a || handler_action a) l = true /\
    forallb (stays_on (loop_context (context w))) l = true /\
    results_written l =
      (if setup_fails e then [] else flat_map write_of (dispatched (signals e))).
Proof.
  cbv zeta. unfold run_ends.
  destruct (setup_fails e) eqn:Hf.
  - destruct (connect_and_wait_failed e w Hf) as (l & -> & Hs & Hl).
    cbn [fst snd orb]. split; [reflexivity|]. split; [reflexivity|].
    exists l. split; [reflexivity|].
    clear Hl. induction l as [|a l IH]; [auto|].
    cbn in Hs. apply andb_true_iff in Hs. destruct Hs as [Ha Hs].
    destruct (IH Hs) as (H1 & H2 & H3).
    destruct a; try discriminate; cbn; rewrite ?H1, ?H2; auto.
  - rewrite (connect_and_wait_ok e w Hf). cbn [orb].
    set (w4 := after_setup w _).
    assert (Htd : is_thread_default (loop_context (context w4)) w4 = true).
    { unfold is_thread_default. cbn. apply Nat.eqb_refl. }
    destruct (g_main_loop_run_spec (signals e) w4 Htd)
      as (Hq & Hfx & (l & Ht & Ha & Hst & Hw) & _ & _).
    split; [exact Hq|]. split; [exact Hfx|].
    eexists. split.
    { rewrite Ht. subst w4. cbn [trace after_setup]. rewrite <- app_assoc. reflexivity. }
    cbn [Datatypes.app forallb setup_action orb andb stays_on results_written].
    split; [|split; [exact Hst|exact Hw]].
    clear - Ha. induction l as [|a l IH]; [reflexivity|].
    cbn in Ha |- *. apply andb_true_iff in Ha. destruct Ha as [Ha Hl].
    rewrite Ha, orb_true_r. exact (IH Hl).
Qed.

(** ** The code after [out_loop] *)

Lemma install_context_free_spec w :
  exists tail,
    trace (final (install_context_free w)) = trace w ++ tail /\
    forallb teardown_action tail = true /\
    context (final (install_context_free w)) = context w /\
    match install_context_free w with
    | Returned _ => 0 <= status_result (context w) /\ status_messages (context w) = []
    | Aborted _ => ~ (0 <= status_result (context w) /\ status_messages (context w) = [])
    | Waiting _ => False
    end.
Proof.
  unfold install_context_free. destruct w as [c o td al tr].
  unfold seq, emit, g_queue_is_empty.
  cbn [context owned thread_default allocated trace].
  destruct (0 <=? status_result c) eqn:Hr; cbn [negb].
  - apply Z.leb_le in Hr. destruct (status_messages c) as [|m q]; cbn [negb final trace context].
    + eexists. split; [list_norm; reflexivity|]. auto.
    + eexists. split; [list_norm; reflexivity|].
      repeat split; auto. intros [_ [=]].
  - apply Z.leb_gt in Hr. cbn [final trace context].
    eexists. split; [list_norm; reflexivity|].
    repeat split; auto. intros [H _]. lia.
Qed.

(** The world in which [install_context_free] is called. *)
Lemma before_free w :
  let w' := (emit a_signals_disconnect ;;
             call cb_notify_complete ;;
             g_main_context_pop_thread_default (loop_context (context w))) w in
  trace w' = trace w ++ a_signals_disconnect
               :: match notify_complete (context w) with
                  | Some _ => [a_call cb_notify_complete]
                  | None => []
                  end
               ++ [a_pop_thread_default (loop_context (context w))] /\
  (status_result (context w'), status_messages (context w')) = completed_with w /\
  loop_ctx (mainloop (context w')) = loop_ctx (mainloop (context w)) /\
  loop_context (context w') = loop_context (context w).
Proof.
  cbv zeta. unfold completed_with. open_world w.
  unfold seq, call, g_main_context_pop_thread_default, emit, set_context,
    set_thread_default, with_status_messages, with_status_result, callback_of.
  cbn [context owned thread_default allocated trace notify_complete status_result
       status_messages loop_context mainloop loop_ctx bundle notify_event].
  destruct notify_complete0 as [f|].
  - destruct (f (status_result0, status_messages0)) as [r q].
    cbn. list_norm. auto.
  - cbn. list_norm. auto.
Qed.

Lemma out_loop_spec w :
  exists tail,
    trace (final (out_loop w)) =
      trace w ++ a_signals_disconnect
        :: match notify_complete (context w) with
           | Some _ => [a_call cb_notify_complete]
           | None => []
           end
        ++ a_pop_thread_default (loop_context (context w)) :: tail /\
    forallb teardown_action tail = true /\
    (status_result (context (final (out_loop w))),
     status_messages (context (final (out_loop w)))) = completed_with w /\
    match out_loop w with
    | Returned _ => 0 <= fst (completed_with w) /\ snd (completed_with w) = []
    | Aborted _ => ~ (0 <= fst (completed_with w) /\ snd (completed_with w) = [])
    | Waiting _ => False
    end.
Proof.
  unfold out_loop.
  destruct (before_free w) as (Ht & Hs & _). cbv zeta in Ht, Hs.
  set (w' := seq _ _ w) in *.
  destruct (install_context_free_spec w') as (tail & Htr & Htail & Hc & Hout).
  exists tail. rewrite Htr, Ht, Hc, <- Hs. cbn [fst snd].
  split; [|auto].
  destruct (notify_complete (context w)); now list_norm.
Qed.

Lemma out_loop_contexts w :
  loop_ctx (mainloop (context (final (out_loop w)))) = loop_ctx (mainloop (context w)) /\
  loop_context (context (final (out_loop w))) = loop_context (context w).
Proof.
  unfold out_loop.
  destruct (before_free w) as (_ & _ & H1 & H2). cbv zeta in H1, H2.
  set (w' := seq _ _ w) in *.
  destruct (install_context_free_spec w') as (tail & _ & _ & Hc & _).
  now rewrite Hc.
Qed.

(** ** The handlers *)

(** C6: the completed handler stores the code it is given, whatever its
    sign, between [g_mutex_lock] and [g_mutex_unlock] of [status_mutex];
    it quits the main loop exactly when the code is not negative.  Both
    handlers keep every store and every push under that one mutex. *)
Theorem completed_stores_then_quits result w :
  let w' := on_installer_completed result w in
  status_result (context w') = result /\
  trace w' = trace w ++ [a_lock status_mutex; a_set_result result; a_unlock status_mutex]
                     ++ (if 0 <=? result then [a_loop_quit] else []) /\
  is_running (mainloop (context w')) =
    (if 0 <=? result then false else is_running (mainloop (context w))) /\
  (forall s w0, exists l,
      trace (dispatch s w0) = trace w0 ++ l /\ guarded false l = true).
Proof.
  cbv zeta. split; [|split; [|split]].
  - unfold on_installer_completed. unfold_cmds. now destruct (0 <=? result).
  - exact (dispatch_trace (Completed result) w).
  - exact (dispatch_running (Completed result) w).
  - intros s w0. exists (handler_trace s w0).
    split; [apply dispatch_trace|apply handler_trace_guarded].
Qed.

(** C10: when the notification reports invalidated properties, the
    handler stores the sentinel [2] under the mutex, quits the main loop
    and returns: whatever [changed] holds, nothing is pushed and no
    delivery is requested. *)
Theorem invalidated_takes_priority changed invalidated w :
  has_invalidated invalidated = true ->
  let w' := on_installer_status changed invalidated w in
  status_result (context w') = 2 /\
  is_running (mainloop (context w')) = false /\
  status_messages (context w') = status_messages (context w) /\
  trace w' = trace w ++ [a_lock status_mutex; a_set_result 2;
                         a_unlock status_mutex; a_loop_quit].
Proof.
  intros Hinv. cbv zeta. unfold on_installer_status. rewrite Hinv.
  unfold_cmds. cbn. list_norm. auto.
Qed.


(** C9 as the code has it: for a progress triple (and no operation name)
    the chain appends the text ["%3d%% %s"] of the percentage and the
    message, from which both can be read back, whatever the percentage;
    the depth is not part of the text. *)
Theorem progress_text_carries_percent_and_message changed percentage message depth w :
  g_variant_lookup_s changed "Operation" = None ->
  g_variant_lookup_isi changed "Progress" = Some (percentage, message, depth) ->
  status_messages (context (push_status_message changed w)) =
    status_messages (context w) ++ [printf_progress percentage message] /\
  scan_progress (printf_progress percentage message) = Some (percentage, message).
Proof.
  intros Hop Hpr. split; [|apply scan_printf_progress].
  unfold push_status_message. now rewrite Hop, Hpr.
Qed.

(** C3 as the code has it: a notification without invalidated properties
    that classifies into a record is ignored when no on-event callback is
    registered (nothing is appended, nothing is requested); when one is
    registered the record is appended under [status_mutex] and exactly one
    delivery request follows the push. *)
Theorem push_and_request_need_callback changed invalidated r w :
  has_invalidated invalidated = false ->
  classify_spec changed = Some r ->
  match notify_event (context w) with
  | None => on_installer_status changed invalidated w = w
  | Some _ =>
      exists served,
        trace (on_installer_status changed invalidated w) =
          trace w ++ [a_lock status_mutex; a_queue_push (queued_text r);
                      a_unlock status_mutex;
                      a_invoke (loop_context (context w)) cb_notify_event;
                      served] /\
        (served = a_call cb_notify_event \/
         served = a_idle_attach (loop_context (context w)) cb_notify_event)
  end.
Proof.
  intros Hinv Hr.
  destruct (notify_event (context w)) as [f|] eqn:Hf.
  - assert (Ht := dispatch_trace (PropertiesChanged changed invalidated) w).
    cbn [dispatch handler_trace] in Ht. rewrite Hinv, Hf, Hr in Ht.
    cbn [records_of map Datatypes.app] in Ht.
    destruct (status_messages (context w) ++ [queued_text r]) eqn:Hq.
    { now destruct (status_messages (context w)). }
    unfold invoke_trace in Ht. eexists. split; [exact Ht|].
    destruct (direct _ _); auto.
  - unfold on_installer_status. now rewrite Hinv, Hf.
Qed.

(** ** Sessions *)

Lemma forallb_weaken {A} (P Q : A -> bool) l :
  (forall a, P a = true -> Q a = true) ->
  forallb P l = true -> forallb Q l = true.
Proof.
  intros HPQ. induction l as [|a l IH]; cbn; [auto|].
  intros H. apply andb_true_iff in H. destruct H as [Ha Hl].
  now rewrite (HPQ a Ha), (IH Hl).
Qed.


Section Session.

(** A session: the number of main contexts created before it, the
    arguments of [rauc_install], and the environment of the worker. *)
Variable n : nat.
Variable bundle : string.
Variables ev cb : option GSourceFunc.
Variable e : environment.

(** The trace of a whole session: what [rauc_install] stores, the setup
    and the handlers, and, when the run ends, the code after [out_loop]. *)
Lemma session_trace :
  exists l tail,
    trace (final (session n bundle ev cb e)) =
      [a_set_result (-2); a_set_result 2; a_thread_new] ++ l ++
      (if run_ends e
       then a_signals_disconnect
              :: match cb with Some _ => [a_call cb_notify_complete] | None => [] end
              ++ a_pop_thread_default (S n) :: tail
       else []) /\
    forallb (fun a => setup_action a || handler_action a) l = true /\
    forallb (stays_on (S n)) l = true /\
    results_written l =
      (if setup_fails e then [] else flat_map write_of (dispatched (signals e))) /\
    forallb teardown_action tail = true /\
    loop_ctx (mainloop (context (final (session n bundle ev cb e)))) = S n /\
    loop_context (context (final (session n bundle ev cb e))) = S n.
Proof.
  unfold session, install_loop_thread.
  set (w0 := rauc_install n bundle ev cb).
  destruct (connect_and_wait_spec e w0) as (Hr & Hfx & l & Ht & Ha & Hst & Hw).
  destruct (connect_and_wait e w0) as [w1 reached]. cbn [fst snd] in *.
  rewrite Hr.
  assert (Hlc : loop_ctx (mainloop (context w1)) = S n /\ loop_context (context w1) = S n).
  { revert Hfx. unfold fixed. now intros [= _ _ _ -> -> _ _ _]. }
  destruct (run_ends e).
  - destruct (out_loop_spec w1) as (tail & Htr & Htail & _ & _).
    destruct (out_loop_contexts w1) as (Hc1 & Hc2).
    rewrite (fixed_notify_complete _ _ Hfx) in Htr. cbn in Htr.
    destruct Hlc as [Hl1 Hl2]. rewrite Hl2 in Htr.
    exists l, tail. rewrite Htr, Ht. cbn [trace rauc_install w0].
    repeat split; auto; try congruence; now list_norm.
  - exists l, []. cbn [final]. rewrite Ht, app_nil_r.
    repeat split; auto; tauto.
Qed.

(** C1: in every session with an on-complete callback whose run ends (by
    setup failure, by a completed notification with a code that is not
    negative, or by a disconnect), the thread leaves the main loop and
    the callback is called exactly once, before any resource is
    released. *)
Theorem on_complete_exactly_once f :
  run_ends e = true ->
  exists w before after,
    (session n bundle ev (Some f) e = Returned w \/
     session n bundle ev (Some f) e = Aborted w) /\
    trace w = before ++ a_call cb_notify_complete :: after /\
    forallb before_completion before = true /\
    forallb (fun a => negb (is_complete_call a)) after = true.
Proof.
  intros Hends. unfold session, install_loop_thread.
  set (w0 := rauc_install n bundle ev (Some f)).
  destruct (connect_and_wait_spec e w0) as (Hr & Hfx & l & Ht & Ha & _ & _).
  destruct (connect_and_wait e w0) as [w1 reached]. cbn [fst snd] in *.
  rewrite Hr, Hends.
  destruct (out_loop_spec w1) as (tail & Htr & Htail & _ & Hout).
  rewrite (fixed_notify_complete _ _ Hfx) in Htr. cbn in Htr.
  exists (final (out_loop w1)), (trace w1 ++ [a_signals_disconnect]),
    (a_pop_thread_default (loop_context (context w1)) :: tail).
  split; [|split; [|split]].
  - destruct (out_loop w1); cbn; auto. contradiction.
  - rewrite Htr. now list_norm.
  - rewrite Ht, !forallb_app. cbn.
    rewrite (forallb_weaken (fun a => setup_action a || handler_action a)
               before_completion l); [reflexivity| |exact Ha].
    intros a. now destruct a as [| | | | | | | | | | |? []|[]|? []| | | | | | | |].
  - cbn. revert Htail. apply forallb_weaken. intros a. now destruct a as [| | | | | | | | | | | |[]| | | | | | | | |].
Qed.



(** C5 as the code has it: [status_result] is stored when the session is
    created ([-2], then the sentinel [2]) and again by every dispatched
    completed notification (its code, negative or not) and every
    dispatched disconnect ([2]); no handler looks at the value that is
    there, each store replaces it, also the store of a signal that ended
    the wait when another signal that stores is dispatched behind it.
    With callbacks that do not store, the value at teardown is the last
    one stored. *)
Theorem status_result_stores :
  let stores :=
    [-2; 2] ++ (if setup_fails e then [] else flat_map write_of (dispatched (signals e))) in
  results_written (trace (final (session n bundle ev cb e))) = stores /\
  (when_set keeps_result ev ->
   when_set keeps_result cb ->
   status_result (context (final (session n bundle ev cb e))) = last stores 2).
Proof.
  cbv zeta. split.
  - destruct session_trace
      as (l & tail & Ht & _ & _ & Hw & Htail & _).
    rewrite Ht. cbn [Datatypes.app results_written].
    rewrite results_written_app, Hw.
    assert (Hrest : forall rest, forallb teardown_action rest = true ->
                                 results_written rest = []).
    { induction rest as [|a rest IH]; [reflexivity|].
      cbn. intros H. apply andb_true_iff in H. destruct H as [Ha Hl].
      destruct a; try discriminate; cbn; auto. }
    destruct (run_ends e); [|now rewrite app_nil_r].
    cbn [results_written]. rewrite results_written_app. cbn [results_written].
    rewrite (Hrest tail Htail).
    destruct cb; cbn; now rewrite app_nil_r.
  - intros Hkev Hkcb. unfold session, install_loop_thread.
    set (w0 := rauc_install n bundle ev cb).
    assert (Hfx := proj1 (proj2 (connect_and_wait_spec e w0))). cbv zeta in Hfx.
    assert (Hlast : status_result (context (fst (connect_and_wait e w0))) =
              last ([-2; 2] ++ (if setup_fails e then []
                                else flat_map write_of (dispatched (signals e)))) 2).
    { destruct (setup_fails e) eqn:Hf.
      - destruct (connect_and_wait_failed e w0 Hf) as (l & -> & _). reflexivity.
      - rewrite (connect_and_wait_ok e w0 Hf).
        set (w4 := after_setup w0 _).
        assert (Htd : is_thread_default (loop_context (context w4)) w4 = true).
        { unfold is_thread_default. cbn. apply Nat.eqb_refl. }
        destruct (g_main_loop_run_spec (signals e) w4 Htd) as (_ & _ & _ & Hctx & _).
        rewrite Hctx, dispatch_all_result by exact Hkev.
        now rewrite last_app_default. }
    destruct (connect_and_wait e w0) as [w1 reached]. cbn [fst snd] in *.
    destruct reached; [|exact Hlast].
    destruct (out_loop_spec w1) as (tail & _ & _ & Hfin & _).
    apply (f_equal fst) in Hfin. cbn [fst] in Hfin. rewrite Hfin, <- Hlast.
    unfold completed_with. rewrite (fixed_notify_complete _ _ Hfx). cbn.
    destruct cb as [f|]; [apply Hkcb|reflexivity].
Qed.

(** C7: when the proxy cannot be created, a subscription fails or the
    install call is rejected, the thread goes to [out_loop] without
    running the main loop; nothing is pushed, requested or delivered;
    [status_result] is never stored again after [rauc_install], and the
    on-complete callback finds the sentinel [2] and an empty queue. *)
Theorem setup_failure_ends_with_sentinel :
  setup_fails e = true ->
  exists w1,
    session n bundle ev cb e = out_loop w1 /\
    status_result (context w1) = 2 /\
    status_messages (context w1) = [] /\
    existsb is_loop_run (trace (final (session n bundle ev cb e))) = false /\
    existsb is_delivery (trace (final (session n bundle ev cb e))) = false /\
    results_written (trace (final (session n bundle ev cb e))) = [-2; 2].
Proof.
  intros Hf. unfold session, install_loop_thread.
  set (w0 := rauc_install n bundle ev cb).
  destruct (connect_and_wait_failed e w0 Hf) as (l & -> & Hs & Hl).
  exists (after_setup w0 l). split; [reflexivity|].
  split; [reflexivity|]. split; [reflexivity|].
  destruct (out_loop_spec (after_setup w0 l)) as (tail & -> & Htail & _).
  cbn [after_setup trace context notify_complete rauc_install w0 loop_context].
  assert (Hsetup : existsb is_delivery l = false /\ results_written l = []).
  { clear Hl. induction l as [|a l IH]; [auto|].
    cbn in Hs. apply andb_true_iff in Hs. destruct Hs as [Ha Hs].
    destruct (IH Hs) as [H1 H2]. destruct a; try discriminate; cbn; auto. }
  assert (Htd : existsb is_loop_run tail = false /\ existsb is_delivery tail = false
                /\ results_written tail = []).
  { clear - Htail. induction tail as [|a tail IH]; [auto|].
    cbn in Htail. apply andb_true_iff in Htail. destruct Htail as [Ha Ht].
    destruct (IH Ht) as (H1 & H2 & H3). destruct a; try discriminate; cbn; auto. }
  destruct Hsetup as [Hd Hw]. destruct Htd as (T1 & T2 & T3).
  rewrite !existsb_app, !results_written_app. cbn [existsb is_loop_run is_delivery orb results_written].
  rewrite !existsb_app, !results_written_app. cbn [existsb is_loop_run is_delivery orb results_written].
  rewrite Hl, Hd, Hw, T1, T2, T3.
  destruct cb; cbn; auto.
Qed.

End Session.

(** ** The theorems at concrete sessions *)

(** C1 at a session with one progress notification and a successful
    completion. *)
Lemma on_complete_exactly_once_witness :
  run_ends (service [PropertiesChanged progress_checking None; Completed 0]) = true /\
  exists w before after,
    (session 0 "update.raucb" (Some drain_all) (Some read_only)
       (service [PropertiesChanged progress_checking None; Completed 0]) = Returned w \/
     session 0 "update.raucb" (Some drain_all) (Some read_only)
       (service [PropertiesChanged progress_checking None; Completed 0]) = Aborted w) /\
    trace w = before ++ a_call cb_notify_complete :: after /\
    forallb before_completion before = true /\
    forallb (fun a => negb (is_complete_call a)) after = true.
Proof.
  split; [reflexivity|].
  apply on_complete_exactly_once. reflexivity.
Defined.



(** C3 as stated fails: without an on-event callback a notification that
    classifies into a record leaves the queue empty, in the handler and in
    a whole session. *)
Lemma record_dropped_without_callback :
  let w0 := rauc_install 0 "update.raucb" None (Some read_only) in
  let w := on_installer_status operation_installing None w0 in
  classify_spec operation_installing = Some (OperationChanged "installing") /\
  status_messages (context w) = [] /\
  pushed (trace w) = [] /\
  pushed (trace (final (session 0 "update.raucb" None (Some read_only)
                          (service [PropertiesChanged operation_installing None;
                                    Completed 0])))) = [].
Proof. vm_compute. repeat split; reflexivity. Qed.

Lemma push_and_request_need_callback_witness :
  has_invalidated None = false /\
  classify_spec operation_installing = Some (OperationChanged "installing") /\
  exists served,
    trace (on_installer_status operation_installing None
             (rauc_install 0 "update.raucb" (Some drain_all) None)) =
      trace (rauc_install 0 "update.raucb" (Some drain_all) None)
      ++ [a_lock status_mutex; a_queue_push "installing"; a_unlock status_mutex;
          a_invoke 1%nat cb_notify_event; served] /\
    (served = a_call cb_notify_event \/
     served = a_idle_attach 1%nat cb_notify_event).
Proof.
  split; [reflexivity|]. split; [reflexivity|].
  exact (push_and_request_need_callback operation_installing None
           (OperationChanged "installing")
           (rauc_install 0 "update.raucb" (Some drain_all) None)
           eq_refl eq_refl).
Defined.



(** C5 as stated fails: the context made by [rauc_install] holds a result
    that is not negative, and a completed notification replaces it; the
    handlers replace a result stored by an earlier completed notification
    just the same; and in a session in which the codes [0] and [5] are
    ready in the same iteration, the result [0] that ended the wait is
    replaced by [5]. *)
Lemma terminal_result_overwritten :
  let w0 := rauc_install 0 "update.raucb" None (Some read_only) in
  let w1 := on_installer_completed 0 w0 in
  let o := session 0 "update.raucb" None (Some read_only)
             (service_passes [[Completed (-1)]; [Completed 0; Completed 5]]) in
  0 <= status_result (context w0) /\
  status_result (context w1) <> status_result (context w0) /\
  0 <= status_result (context w1) /\
  status_result (context (on_installer_completed 5 w1)) <> status_result (context w1) /\
  status_result (context (on_installer_status [] (Some ["Operation"]) w1))
    <> status_result (context w1) /\
  returned o = true /\
  results_written (trace (final o)) = [-2; 2; -1; 0; 5] /\
  status_result (context (final o)) = 5.
Proof.
  vm_compute. repeat split; try discriminate.
Qed.

Lemma status_result_stores_witness :
  when_set keeps_result None /\
  when_set keeps_result (Some read_only) /\
  status_result
    (context (final (session 0 "update.raucb" None (Some read_only)
                       (service_passes [[Completed (-1)]; [Completed 0; Completed 5]])))) =
  last ([-2; 2] ++ [-1; 0; 5]) 2.
Proof.
  assert (Hev : when_set keeps_result None) by exact I.
  assert (Hcb : when_set keeps_result (Some read_only)) by (intros r q; reflexivity).
  split; [exact Hev|]. split; [exact Hcb|].
  exact (proj2 (status_result_stores 0 "update.raucb" None (Some read_only)
                  (service_passes [[Completed (-1)]; [Completed 0; Completed 5]]))
           Hev Hcb).
Defined.

Lemma setup_failure_ends_with_sentinel_witness :
  setup_fails (mkEnv None true 1%N 0%N true [[Completed 0]]) = true /\
  exists w1,
    session 0 "update.raucb" (Some drain_all) (Some read_only)
      (mkEnv None true 1%N 0%N true [[Completed 0]]) = out_loop w1 /\
    status_result (context w1) = 2 /\
    status_messages (context w1) = [] /\
    existsb is_loop_run
      (trace (final (session 0 "update.raucb" (Some drain_all) (Some read_only)
                       (mkEnv None true 1%N 0%N true [[Completed 0]])))) = false /\
    existsb is_delivery
      (trace (final (session 0 "update.raucb" (Some drain_all) (Some read_only)
                       (mkEnv None true 1%N 0%N true [[Completed 0]])))) = false /\
    results_written
      (trace (final (session 0 "update.raucb" (Some drain_all) (Some read_only)
                       (mkEnv None true 1%N 0%N true [[Completed 0]])))) = [-2; 2].
Proof.
  split; [reflexivity|].
  apply setup_failure_ends_with_sentinel. reflexivity.
Defined.

(** C9 as stated fails: sessions that differ in the depth of their
    progress notification push the same text, so no reader of the queue
    can tell the depth. *)
Lemma depth_is_not_carried :
  ~ exists depth_of : list string -> Z,
      forall depth,
        depth_of
          (pushed (trace (final
             (session 0 "update.raucb" (Some drain_all) None
                (service [PropertiesChanged [("Progress", GV_isi 50 "writing" depth)] None;
                          Completed 0]))))) = depth.
Proof.
  intros [depth_of H].
  assert (H1 := H 1). assert (H2 := H 2).
  change (depth_of [" 50% writing"] = 1) in H1.
  change (depth_of [" 50% writing"] = 2) in H2.
  congruence.
Qed.

Lemma progress_text_carries_percent_and_message_witness :
  g_variant_lookup_s progress_checking "Operation" = None /\
  g_variant_lookup_isi progress_checking "Progress" = Some (10, "checking", 1) /\
  status_messages (context (push_status_message progress_checking
                              (rauc_install 0 "update.raucb" (Some drain_all) None))) =
    [] ++ [printf_progress 10 "checking"] /\
  scan_progress (printf_progress 10 "checking") = Some (10, "checking").
Proof.
  split; [reflexivity|]. split; [reflexivity|].
  exact (progress_text_carries_percent_and_message progress_checking 10 "checking" 1
           (rauc_install 0 "update.raucb" (Some drain_all) None) eq_refl eq_refl).
Defined.

Lemma invalidated_takes_priority_witness :
  has_invalidated (Some ["Operation"]) = true /\
  let w := rauc_install 0 "update.raucb" (Some drain_all) None in
  let w' := on_installer_status operation_installing (Some ["Operation"]) w in
  status_result (context w') = 2 /\
  is_running (mainloop (context w')) = false /\
  status_messages (context w') = status_messages (context w) /\
  trace w' = trace w ++ [a_lock status_mutex; a_set_result 2;
                         a_unlock status_mutex; a_loop_quit].
Proof.
  split; [reflexivity|].
  apply (invalidated_takes_priority operation_installing (Some ["Operation"])
           (rauc_install 0 "update.raucb" (Some drain_all) None)).
  reflexivity.
Defined.

(** ** Scenarios *)

(** The texts of the three formats. *)
Example printf_examples :
  printf_progress 5 "start" = "  5% start" /\
  printf_progress 100 "done" = "100% done" /\
  printf_progress (-7) "odd" = " -7% odd" /\
  printf_progress 1234 "over" = "1234% over" /\
  printf_last_error "no space" = "LastError: no space".
Proof. vm_compute. repeat split; reflexivity. Qed.

(** An operation name wins over a progress triple in the same
    notification; a string under ["Progress"] is not a triple; an empty
    error message is dropped. *)
Example classification_examples :
  classify_spec [("Progress", GV_isi 10 "checking" 1); ("Operation", GV_s "installing")]
    = Some (OperationChanged "installing") /\
  classify_spec [("Progress", GV_s "10"); ("LastError", GV_s "failed")]
    = Some (LastError "failed") /\
  classify_spec [("LastError", GV_s "")] = None /\
  classify_spec [("BootSlot", GV_s "A")] = None.
Proof. vm_compute. repeat split; reflexivity. Qed.

(** The service completes at once with code 0: nothing is pushed, the
    on-event callback is never called, the thread returns with result 0. *)
Example scenario_immediate_success :
  let o := session 0 "update.raucb" (Some drain_all) (Some read_only)
             (service [Completed 0]) in
  returned o = true /\
  status_result (context (final o)) = 0 /\
  existsb is_delivery (trace (final o)) = false.
Proof. vm_compute. repeat split; reflexivity. Qed.

(** Three progress notifications, then success: three texts are pushed in
    that order, each followed by a call of the on-event callback, before
    the on-complete callback is called. *)
Example scenario_three_progress :
  let o := session 0 "update.raucb" (Some drain_all) (Some read_only)
             (service [progress 10 "checking"; progress 50 "writing";
                       progress 100 "done"; Completed 0]) in
  returned o = true /\
  pushed (trace (final o)) = [" 10% checking"; " 50% writing"; "100% done"] /\
  filter is_delivery (trace (final o)) =
    [a_queue_push " 10% checking"; a_invoke 1%nat cb_notify_event; a_call cb_notify_event;
     a_queue_push " 50% writing"; a_invoke 1%nat cb_notify_event; a_call cb_notify_event;
     a_queue_push "100% done"; a_invoke 1%nat cb_notify_event; a_call cb_notify_event] /\
  status_result (context (final o)) = 0.
Proof. vm_compute. repeat split; reflexivity. Qed.

(** The service vanishes after one progress notification: the text was
    delivered, the result is the sentinel. *)
Example scenario_disconnect :
  let o := session 0 "update.raucb" (Some drain_all) (Some read_only)
             (service [progress 10 "checking";
                       PropertiesChanged [] (Some ["Operation"]);
                       Completed 0]) in
  returned o = true /\
  pushed (trace (final o)) = [" 10% checking"] /\
  results_written (trace (final o)) = [-2; 2; 2] /\
  status_result (context (final o)) = 2.
Proof. vm_compute. repeat split; reflexivity. Qed.

(** The install call is rejected: the loop is not run and the result is
    the sentinel. *)
Example scenario_install_rejected :
  let o := session 0 "" (Some drain_all) (Some read_only)
             (mkEnv (Some "session") true 1%N 2%N false [[progress 10 "checking"]]) in
  returned o = true /\
  trace (final o) =
    [a_set_result (-2); a_set_result 2; a_thread_new;
     a_push_thread_default 1%nat; a_proxy_new G_BUS_TYPE_SESSION;
     a_signal_connect "g-properties-changed"; a_signal_connect "completed";
     a_call_install ""; a_signals_disconnect; a_call cb_notify_complete;
     a_pop_thread_default 1%nat; a_free_bundle; a_mutex_clear status_mutex;
     a_context_unref 1%nat; a_loop_unref; a_free_context] /\
  status_result (context (final o)) = 2.
Proof. vm_compute. repeat split; reflexivity. Qed.

(** Signals that are ready in the same iteration as the one that ends
    the wait are still handled: the text is pushed and delivered, the
    later code replaces the result. *)
Example scenario_same_iteration :
  let o := session 0 "update.raucb" (Some drain_all) (Some read_only)
             (service_passes [[Completed 0; progress 100 "done"; Completed 3];
                              [progress 10 "late"]]) in
  returned o = true /\
  pushed (trace (final o)) = ["100% done"] /\
  results_written (trace (final o)) = [-2; 2; 0; 3] /\
  status_result (context (final o)) = 3.
Proof. vm_compute. repeat split; reflexivity. Qed.

(** A service that only sends a negative code never ends the wait. *)
Example scenario_negative_code :
  let o := session 0 "update.raucb" None (Some read_only) (service [Completed (-1)]) in
  waiting o = true /\
  status_result (context (final o)) = -1 /\
  existsb is_complete_call (trace (final o)) = false.
Proof. vm_compute. repeat split; reflexivity. Qed.

(** An on-event callback that leaves messages in the queue makes the
    second assertion of [install_context_free] fail. *)
Example scenario_undrained_queue :
  let o := session 0 "update.raucb" (Some read_only) (Some read_only)
             (service [progress 10 "checking"; Completed 0]) in
  aborted o = true /\
  status_messages (context (final o)) = [" 10% checking"] /\
  last (trace (final o)) a_thread_new = a_assert_failed "g_queue_is_empty".
Proof. vm_compute. repeat split; reflexivity. Qed.

(** * Further properties *)

(** ** The trace of the main loop *)

Lemma texts_of_pushed s w :
  pushed (handler_trace s w) =
  match notify_event (context w) with
  | Some _ => texts_of s
  | None => []
  end.
Proof.
  rewrite handler_trace_pushed. destruct s as [changed invalidated|result]; cbn [texts_of].
  - destruct (has_invalidated invalidated); now destruct (notify_event (context w)).
  - now destruct (notify_event (context w)).
Qed.

Lemma loop_trace_pushed sigs : forall w,
  pushed (loop_trace sigs w) =
  match notify_event (context w) with
  | Some _ => flat_map texts_of sigs
  | None => []
  end.
Proof.
  induction sigs as [|s sigs IH]; intros w; cbn [loop_trace flat_map].
  - now destruct (notify_event (context w)).
  - rewrite pushed_app, texts_of_pushed, IH.
    rewrite (fixed_notify_event _ _ (dispatch_fixed s w)).
    destruct (notify_event (context w)); reflexivity.
Qed.

Lemma guarded_app l1 : forall held l2,
  guarded held l1 = true ->
  guarded held (l1 ++ l2) = guarded false l2.
Proof.
  induction l1 as [|a l1 IH]; intros held l2 H; cbn [Datatypes.app].
  - cbn in H. apply negb_true_iff in H. now subst.
  - destruct a as [| | | | | | | |[]|[]| | | | | | | | | | | |];
      destruct held; cbn in H |- *; try discriminate H; apply IH; exact H.
Qed.

Lemma calls_unlocked_app l1 : forall held l2,
  guarded held l1 = true ->
  calls_unlocked held (l1 ++ l2) = calls_unlocked held l1 && calls_unlocked false l2.
Proof.
  induction l1 as [|a l1 IH]; intros held l2 H; cbn [Datatypes.app].
  - cbn in H. apply negb_true_iff in H. now subst.
  - destruct a as [| | | | | | | |[]|[]| |? ?|?| | | | | | | | |];
      destruct held; cbn in H |- *; try discriminate H; try reflexivity;
      apply IH; exact H.
Qed.

Lemma calls_unlocked_pushes l rest :
  calls_unlocked true (map a_queue_push l ++ rest) = calls_unlocked true rest.
Proof. induction l as [|s l IH]; cbn; [reflexivity|exact IH]. Qed.

Lemma handler_trace_unlocked s w : calls_unlocked false (handler_trace s w) = true.
Proof.
  destruct s as [changed invalidated | result]; cbn [handler_trace].
  - destruct (has_invalidated invalidated); [reflexivity|].
    destruct (notify_event (context w)); [|reflexivity].
    cbv zeta. cbn [Datatypes.app calls_unlocked]. rewrite calls_unlocked_pushes.
    destruct (status_messages (context w) ++ _); [reflexivity|].
    unfold invoke_trace. now destruct (direct _ _).
  - now destruct (0 <=? result).
Qed.

Lemma loop_trace_locking sigs : forall w,
  guarded false (loop_trace sigs w) = true /\
  calls_unlocked false (loop_trace sigs w) = true.
Proof.
  induction sigs as [|s sigs IH]; intros w; cbn [loop_trace]; [auto|].
  rewrite (guarded_app _ _ _ (handler_trace_guarded s w)).
  rewrite (calls_unlocked_app _ _ _ (handler_trace_guarded s w)), handler_trace_unlocked.
  apply IH.
Qed.

(** ** The trace of the worker thread *)

(** [connect_and_wait] takes the setup steps and, when none failed, runs
    the main loop. *)
Lemma connect_and_wait_steps e w :
  connect_and_wait e w =
  let w4 := after_setup w (setup_steps e (loop_context (context w)) (bundle (context w))) in
  if setup_fails e then (w4, true) else g_main_loop_run (signals e) w4.
Proof.
  unfold setup_fails, connect_and_wait, after_setup, setup_steps. cbv zeta.
  destruct (proxy_created e); cbn [negb orb].
  - destruct (status_handler_id e <=? 0)%N; cbn [orb].
    + unfold_cmds. cbn. list_norm. reflexivity.
    + destruct (completed_handler_id e <=? 0)%N; cbn [orb].
      * unfold_cmds. cbn. list_norm. reflexivity.
      * destruct (install_accepted e); cbn [negb];
          unfold_cmds; cbn; list_norm; reflexivity.
  - unfold_cmds. cbn. list_norm. reflexivity.
Qed.

Lemma connect_and_wait_trace e w :
  trace (fst (connect_and_wait e w)) =
  trace w ++ setup_steps e (loop_context (context w)) (bundle (context w))
          ++ loop_part e w.
Proof.
  rewrite connect_and_wait_steps. cbv zeta. unfold loop_part.
  destruct (setup_fails e).
  - cbn. now rewrite app_nil_r.
  - rewrite g_main_loop_run_unfold. cbv zeta. cbn [fst set_owned trace].
    rewrite iterate_dispatched by reflexivity. cbn [fst].
    rewrite dispatch_all_trace.
    unfold loop_world. cbn [trace emit after_setup context mainloop loop_ctx
                            set_owned set_context with_running].
    now list_norm.
Qed.

Lemma install_context_free_tail w :
  exists tail,
    trace (final (install_context_free w)) = trace w ++ tail /\
    forallb teardown_action tail = true /\
    (returned (install_context_free w) = true ->
     tail = free_actions (loop_context (context w))).
Proof.
  unfold install_context_free, free_actions. destruct w as [c o td al tr].
  unfold seq, emit, g_queue_is_empty.
  cbn [context owned thread_default allocated trace].
  destruct (0 <=? status_result c); cbn [negb].
  - destruct (status_messages c); cbn [negb final trace returned].
    + eexists. split; [list_norm; reflexivity|]. auto.
    + eexists. split; [list_norm; reflexivity|]. split; [reflexivity|discriminate].
  - cbn [final trace returned].
    eexists. split; [list_norm; reflexivity|]. split; [reflexivity|discriminate].
Qed.

Lemma out_loop_parts w :
  exists tail,
    trace (final (out_loop w)) =
      trace w ++ leave_actions (notify_complete (context w)) (loop_context (context w))
              ++ tail /\
    forallb teardown_action tail = true /\
    (returned (out_loop w) = true -> tail = free_actions (loop_context (context w))).
Proof.
  unfold out_loop.
  destruct (before_free w) as (Ht & _ & _ & Hlc). cbv zeta in Ht, Hlc.
  set (w' := seq _ _ w) in *.
  destruct (install_context_free_tail w') as (tail & Htr & Htail & Hret).
  exists tail. rewrite Htr, Ht, <- Hlc. unfold leave_actions.
  split; [now list_norm|]. auto.
Qed.

Lemma filter_none {A} (P Q : A -> bool) l :
  (forall a, Q a = true -> P a = false) ->
  forallb Q l = true -> filter P l = [].
Proof.
  intros HPQ. induction l as [|a l IH]; cbn; [reflexivity|].
  intros H. apply andb_true_iff in H. destruct H as [Ha Hl].
  now rewrite (HPQ a Ha), (IH Hl).
Qed.

(** ** The loop with a draining callback *)

(** A handler that finds the queue empty and calls the on-event callback
    directly delivers each text it pushes at once. *)
Lemma handler_trace_delivery s w :
  notify_event (context w) <> None ->
  status_messages (context w) = [] ->
  direct (loop_context (context w)) w = true ->
  filter is_delivery (handler_trace s w) =
  flat_map (delivery_of (loop_context (context w))) (texts_of s).
Proof.
  intros Hev Hq Hd.
  destruct s as [changed invalidated | result]; cbn [handler_trace texts_of].
  - destruct (has_invalidated invalidated); [reflexivity|].
    destruct (notify_event (context w)); [|contradiction].
    cbv zeta. rewrite Hq. cbn [Datatypes.app].
    destruct (classify_spec changed) as [r|]; cbn [records_of map Datatypes.app]; [|reflexivity].
    unfold invoke_trace. rewrite Hd. reflexivity.
  - now destruct (0 <=? result).
Qed.

Lemma loop_trace_delivery sigs : forall w,
  notify_event (context w) <> None ->
  when_set drains (notify_event (context w)) ->
  status_messages (context w) = [] ->
  direct (loop_context (context w)) w = true ->
  filter is_delivery (loop_trace sigs w) =
  flat_map (delivery_of (loop_context (context w))) (flat_map texts_of sigs).
Proof.
  induction sigs as [|s sigs IH]; intros w Hev Hdr Hq Hd; cbn [loop_trace flat_map];
    [reflexivity|].
  rewrite filter_app, (handler_trace_delivery s w Hev Hq Hd), flat_map_app. f_equal.
  assert (Hfx := dispatch_fixed s w).
  rewrite IH.
  - now rewrite (fixed_loop_context _ _ Hfx).
  - now rewrite (fixed_notify_event _ _ Hfx).
  - now rewrite (fixed_notify_event _ _ Hfx).
  - now apply dispatch_drained.
  - now rewrite (direct_fixed _ _ Hfx).
Qed.

(** ** Actions that neither lock nor store *)

Lemma locking_skip l : forall held l2,
  forallb outside_handlers l = true ->
  guarded held (l ++ l2) = guarded held l2 /\
  calls_unlocked false (l ++ l2) = calls_unlocked false l2.
Proof.
  induction l as [|a l IH]; intros held l2 H; cbn [Datatypes.app]; [auto|].
  cbn in H. apply andb_true_iff in H. destruct H as [Ha Hl].
  destruct (IH held l2 Hl) as [H1 H2].
  destruct a as [| | | | | | | | | | | |[]| | | | | | | | |]; try discriminate Ha; cbn; auto.
Qed.

(** ** Handlers and formats *)

(** X10: a notification that pushes nothing (no matching field, or an
    empty error message) still takes and releases the mutex; it requests
    delivery again when messages are waiting in the queue, because the
    request depends on the queue and not on what was pushed, and does
    nothing else when the queue is empty. *)
Theorem unclassified_notification changed invalidated f w :
  has_invalidated invalidated = false ->
  classify_spec changed = None ->
  notify_event (context w) = Some f ->
  match status_messages (context w) with
  | [] =>
      trace (on_installer_status changed invalidated w) =
        trace w ++ [a_lock status_mutex; a_unlock status_mutex] /\
      context (on_installer_status changed invalidated w) = context w
  | _ :: _ =>
      exists served,
        trace (on_installer_status changed invalidated w) =
          trace w ++ [a_lock status_mutex; a_unlock status_mutex;
                      a_invoke (loop_context (context w)) cb_notify_event; served] /\
        (served = a_call cb_notify_event \/
         served = a_idle_attach (loop_context (context w)) cb_notify_event)
  end.
Proof.
  intros Hinv Hc Hf.
  assert (Ht := dispatch_trace (PropertiesChanged changed invalidated) w).
  cbn [dispatch handler_trace] in Ht. rewrite Hinv, Hf, Hc in Ht.
  cbn [records_of map Datatypes.app] in Ht. rewrite app_nil_r in Ht.
  destruct (status_messages (context w)) as [|m q] eqn:Hq.
  - split; [exact Ht|].
    unfold on_installer_status. rewrite Hinv, Hf, locked_push, Hc. cbv zeta.
    unfold g_queue_is_empty. cbn. rewrite Hq. cbn.
    destruct w as [c o td al tr]. destruct c. cbn in Hq |- *. now subst.
  - unfold invoke_trace in Ht. eexists. split; [exact Ht|].
    destruct (direct _ _); auto.
Qed.

(** X11: for a percentage from 0 to 100 the number takes exactly three
    columns, so the message of every progress text starts at the sixth
    character. *)
Theorem progress_text_width percentage message :
  0 <= percentage <= 100 ->
  String.length (printf_progress percentage message) = (5 + String.length message)%nat /\
  substring 5 (String.length message) (printf_progress percentage message) = message.
Proof.
  intros Hp.
  assert (Hall : forallb (fun k => Nat.eqb (String.length (printf_3d (Z.of_nat k))) 3)
                         (List.seq 0%nat 101%nat) = true) by (vm_compute; reflexivity).
  rewrite forallb_forall in Hall.
  assert (H3 : String.length (printf_3d percentage) = 3%nat).
  { rewrite <- (Z2Nat.id percentage) by lia.
    apply Nat.eqb_eq, Hall, in_seq. lia. }
  unfold printf_progress.
  destruct (printf_3d percentage) as [|c1 [|c2 [|c3 [|c4 rest]]]]; try discriminate H3.
  cbn [String.append String.length]. split; [reflexivity|].
  cbn [substring]. clear. induction message as [|c m IH]; cbn; [reflexivity|].
  now rewrite IH.
Qed.

(** ** Whole sessions *)

Section Runs.

Variable n : nat.
Variable path : string.
Variables ev cb : option GSourceFunc.
Variable e : environment.

(** The four parts of the trace of a session: what [rauc_install] does,
    the setup steps, the main loop, and the code after [out_loop]. *)
Lemma session_parts :
  exists tail,
    trace (final (session n path ev cb e)) =
      [a_set_result (-2); a_set_result 2; a_thread_new]
      ++ setup_steps e (S n) path
      ++ loop_part e (rauc_install n path ev cb)
      ++ (if run_ends e then leave_actions cb (S n) ++ tail else []) /\
    forallb teardown_action tail = true /\
    (returned (session n path ev cb e) = true ->
     run_ends e = true /\ tail = free_actions (S n)).
Proof.
  unfold session, install_loop_thread.
  set (w0 := rauc_install n path ev cb).
  destruct (connect_and_wait_spec e w0) as (Hr & Hfx & _).
  assert (Ht := connect_and_wait_trace e w0).
  destruct (connect_and_wait e w0) as [w1 reached]. cbn [fst snd] in *.
  rewrite Hr.
  assert (Hlc : loop_context (context w1) = S n).
  { now rewrite (fixed_loop_context _ _ Hfx). }
  destruct (run_ends e).
  - destruct (out_loop_parts w1) as (tail & Htr & Htail & Hret).
    rewrite (fixed_notify_complete _ _ Hfx), Hlc in Htr. cbn in Htr.
    rewrite Hlc in Hret.
    exists tail. rewrite Htr, Ht. cbn [trace rauc_install w0 context loop_context bundle].
    split; [unfold leave_actions; now list_norm|]. split; [exact Htail|]. auto.
  - exists []. cbn [final returned]. rewrite Ht, app_nil_r.
    cbn [trace rauc_install w0 context loop_context bundle].
    split; [now list_norm|]. split; [reflexivity|discriminate].
Qed.

(** A filter that lets no handler action and no action of
    [install_context_free] through sees only the other parts. *)
Lemma filter_session (P : action -> bool) :
  (forall a, handler_action a = true -> P a = false) ->
  (forall a, teardown_action a = true -> P a = false) ->
  P (a_set_result (-2)) = false -> P (a_set_result 2) = false ->
  P a_thread_new = false ->
  filter P (trace (final (session n path ev cb e))) =
    filter P (setup_steps e (S n) path)
    ++ (if setup_fails e then [] else filter P [a_loop_run (S n)])
    ++ (if run_ends e then filter P (leave_actions cb (S n)) else []).
Proof.
  intros Hh Ht H1 H2 H3.
  destruct session_parts as (tail & -> & Htail & _).
  cbn [Datatypes.app filter]. rewrite H1, H2, H3.
  rewrite !filter_app. f_equal. f_equal.
  - unfold loop_part. destruct (setup_fails e); [reflexivity|].
    cbn [filter Datatypes.app]. rewrite (filter_none P handler_action _ Hh), ?app_nil_r.
    + now destruct (P _).
    + apply loop_trace_actions.
  - destruct (run_ends e); [|reflexivity].
    now rewrite filter_app, (filter_none P teardown_action tail Ht Htail), app_nil_r.
Qed.

(** X1: every session asks for the proxy exactly once, on the session bus
    when [DBUS_STARTER_BUS_TYPE] is exactly ["session"] and on the system
    bus in every other case, also when the variable is not set. *)
Theorem proxy_requested_once_on_selected_bus :
  filter is_proxy_new (trace (final (session n path ev cb e))) =
    [a_proxy_new (if match DBUS_STARTER_BUS_TYPE e with
                     | Some v => String.eqb v "session"
                     | None => false
                     end
                  then G_BUS_TYPE_SESSION else G_BUS_TYPE_SYSTEM)] /\
  (bus_type e = G_BUS_TYPE_SESSION <-> DBUS_STARTER_BUS_TYPE e = Some "session").
Proof.
  split.
  - rewrite filter_session; try reflexivity;
      try (intros a; now destruct a as [| | | | | | | | | | |? []|[]|? []| | | | | | | |]).
    assert (Hb : bus_type e =
                 if match DBUS_STARTER_BUS_TYPE e with
                    | Some v => String.eqb v "session"
                    | None => false
                    end
                 then G_BUS_TYPE_SESSION else G_BUS_TYPE_SYSTEM).
    { unfold bus_type. destruct (DBUS_STARTER_BUS_TYPE e) as [v|]; [|reflexivity].
      now destruct (String.eqb v "session"). }
    rewrite <- Hb. unfold setup_steps, leave_actions.
    destruct (setup_fails e), (run_ends e), (proxy_created e),
      (status_handler_id e <=? 0)%N, (completed_handler_id e <=? 0)%N, cb; reflexivity.
  - unfold bus_type. destruct (DBUS_STARTER_BUS_TYPE e) as [v|].
    + destruct (String.eqb_spec v "session") as [->|Hne].
      * split; reflexivity.
      * split; [discriminate|]. intros [= H]. contradiction.
    + split; discriminate.
Qed.

(** X2: the install call is made at most once, with the bundle given to
    [rauc_install], and exactly when the proxy was created and both
    signal handlers were connected. *)
Theorem install_called_once_after_subscriptions :
  filter is_install_call (trace (final (session n path ev cb e))) =
    if proxy_created e && (0 <? status_handler_id e)%N && (0 <? completed_handler_id e)%N
    then [a_call_install path] else [].
Proof.
  rewrite filter_session; try reflexivity;
    try (intros a; now destruct a as [| | | | | | | | | | |? []|[]|? []| | | | | | | |]).
  unfold setup_steps, leave_actions.
  rewrite !N.ltb_antisym.
  destruct (setup_fails e), (run_ends e), (proxy_created e),
    (status_handler_id e <=? 0)%N, (completed_handler_id e <=? 0)%N, cb; reflexivity.
Qed.

(** X3: a run that does not end leaves the thread in the main loop: the
    handlers are never disconnected, the on-complete callback is never
    called and nothing is released. *)
Theorem unending_run_waits :
  run_ends e = false ->
  waiting (session n path ev cb e) = true /\
  forallb (fun a => negb (is_disconnect a) && negb (is_complete_call a)
                    && negb (is_release a))
          (trace (final (session n path ev cb e))) = true.
Proof.
  intros Hends. split.
  - unfold session, install_loop_thread.
    assert (Hr := proj1 (connect_and_wait_spec e (rauc_install n path ev cb))).
    cbv zeta in Hr. destruct (connect_and_wait _ _) as [w1 reached].
    cbn [snd] in Hr. now rewrite Hr, Hends.
  - destruct session_parts as (tail & -> & _). rewrite Hends, app_nil_r.
    cbn [Datatypes.app forallb is_disconnect is_complete_call is_release negb andb].
    rewrite forallb_app. apply andb_true_iff. split.
    + unfold setup_steps.
      now destruct (proxy_created e), (status_handler_id e <=? 0)%N,
        (completed_handler_id e <=? 0)%N.
    + unfold loop_part. destruct (setup_fails e); [reflexivity|].
      cbn [forallb is_disconnect is_complete_call is_release negb andb].
      apply (forallb_weaken handler_action); [|apply loop_trace_actions].
      intros a. now destruct a as [| | | | | | | | | | |? []|[]|? []| | | | | | | |].
Qed.

(** X6: the texts a session pushes are those of the notifications the
    loop dispatches, in the order of the notifications, none lost and
    none twice; the notifications ready in the iteration in which the
    wait ends count among them, also those behind the signal that ended
    it.  Without an on-event callback, or when the setup fails, nothing is
    pushed at all. *)
Theorem pushed_in_signal_order :
  pushed (trace (final (session n path ev cb e))) =
    if setup_fails e then []
    else match ev with
         | Some _ => flat_map texts_of (dispatched (signals e))
         | None => []
         end.
Proof.
  destruct session_parts as (tail & -> & Htail & _).
  cbn [Datatypes.app pushed]. rewrite !pushed_app.
  assert (Hsteps : pushed (setup_steps e (S n) path) = []).
  { unfold setup_steps.
    now destruct (proxy_created e), (status_handler_id e <=? 0)%N,
      (completed_handler_id e <=? 0)%N. }
  assert (Hleave : pushed (if run_ends e then leave_actions cb (S n) ++ tail else []) = []).
  { destruct (run_ends e); [|reflexivity]. rewrite pushed_app.
    assert (Ht : pushed tail = []).
    { clear - Htail. induction tail as [|a tail IH]; [reflexivity|].
      cbn in Htail. apply andb_true_iff in Htail. destruct Htail as [Ha Ht].
      destruct a; try discriminate; cbn; auto. }
    rewrite Ht. now destruct cb. }
  rewrite Hsteps, Hleave, app_nil_r. cbn [Datatypes.app].
  unfold loop_part. destruct (setup_fails e); [reflexivity|].
  cbn [pushed]. now rewrite loop_trace_pushed.
Qed.

(** X7: with an on-event callback that empties the queue, every text
    pushed for a dispatched notification (those behind the signal that
    ended the wait included) is followed at once by one delivery request
    on the loop context and one direct call of the callback, before the
    next text is pushed; there is no other delivery action in the
    session. *)
Theorem drained_delivery_once_per_text f :
  ev = Some f ->
  drains f ->
  setup_fails e = false ->
  filter is_delivery (trace (final (session n path ev cb e))) =
  flat_map (delivery_of (S n)) (flat_map texts_of (dispatched (signals e))).
Proof.
  intros Hev Hdr Hf.
  destruct session_parts as (tail & -> & Htail & _).
  cbn [Datatypes.app filter is_delivery]. rewrite !filter_app.
  assert (Hsteps : filter is_delivery (setup_steps e (S n) path) = []).
  { unfold setup_steps.
    now destruct (proxy_created e), (status_handler_id e <=? 0)%N,
      (completed_handler_id e <=? 0)%N. }
  assert (Hleave : filter is_delivery
                     (if run_ends e then leave_actions cb (S n) ++ tail else []) = []).
  { destruct (run_ends e); [|reflexivity]. rewrite filter_app.
    rewrite (filter_none is_delivery teardown_action tail); [|now intros []|exact Htail].
    now destruct cb. }
  rewrite Hsteps, Hleave, app_nil_r. cbn [Datatypes.app].
  unfold loop_part. rewrite Hf. cbn [filter is_delivery].
  rewrite loop_trace_delivery.
  - reflexivity.
  - cbn. now rewrite Hev.
  - cbn. rewrite Hev. exact Hdr.
  - reflexivity.
  - unfold direct, is_thread_default. cbn. rewrite Nat.eqb_refl. apply orb_true_r.
Qed.

(** X8: after [rauc_install] handed the context to the thread, every store
    to [status_result] and every push to the queue of the session happens
    between a lock and an unlock of [status_mutex], the locks never nest,
    and no delivery request and no callback call is made while the mutex
    is held, so a callback may take the mutex itself. *)
Theorem session_locking_discipline :
  exists rest,
    trace (final (session n path ev cb e)) =
      [a_set_result (-2); a_set_result 2; a_thread_new] ++ rest /\
    guarded false rest = true /\
    calls_unlocked false rest = true.
Proof.
  destruct session_parts as (tail & -> & Htail & _).
  eexists. split; [reflexivity|].
  assert (Hsteps : forallb outside_handlers (setup_steps e (S n) path) = true).
  { unfold setup_steps.
    now destruct (proxy_created e), (status_handler_id e <=? 0)%N,
      (completed_handler_id e <=? 0)%N. }
  assert (Hend : forallb outside_handlers
                   (if run_ends e then leave_actions cb (S n) ++ tail else []) = true).
  { destruct (run_ends e); [|reflexivity]. rewrite forallb_app.
    apply andb_true_iff. split; [now destruct cb|].
    revert Htail. apply forallb_weaken. intros a. now destruct a. }
  destruct (locking_skip _ false
              (loop_part e (rauc_install n path ev cb)
               ++ (if run_ends e then leave_actions cb (S n) ++ tail else [])) Hsteps)
    as [-> ->].
  assert (Hrest : forall l, forallb outside_handlers l = true ->
                            guarded false l = true /\ calls_unlocked false l = true).
  { intros l Hl. destruct (locking_skip l false [] Hl) as [H1 H2].
    rewrite app_nil_r in H1, H2. now rewrite H1, H2. }
  unfold loop_part. destruct (setup_fails e); cbn [Datatypes.app].
  - now apply Hrest.
  - cbn [guarded calls_unlocked].
    destruct (loop_trace_locking (dispatched (signals e))
                (loop_world e (rauc_install n path ev cb)))
      as [Hg Hc].
    rewrite (guarded_app _ _ _ Hg), (calls_unlocked_app _ _ _ Hg), Hc.
    now apply Hrest.
Qed.

(** X9: a session that returns ends with one fixed sequence: the handlers
    are disconnected, the on-complete callback (if any) is called, the
    thread-default context is popped, then the bundle, the mutex, the loop
    context, the loop and the context itself are released, each once and
    in this order; nothing before that sequence releases anything. *)
Theorem returned_session_teardown :
  returned (session n path ev cb e) = true ->
  exists body,
    trace (final (session n path ev cb e)) =
      body ++ leave_actions cb (S n) ++ free_actions (S n) /\
    forallb (fun a => negb (is_disconnect a) && negb (is_complete_call a)
                      && negb (is_release a) && negb (teardown_action a)) body = true.
Proof.
  intros Hret.
  destruct session_parts as (tail & Ht & _ & Hfree).
  destruct (Hfree Hret) as [Hends ->]. rewrite Hends in Ht.
  exists ([a_set_result (-2); a_set_result 2; a_thread_new]
          ++ setup_steps e (S n) path ++ loop_part e (rauc_install n path ev cb)).
  split; [rewrite Ht; now list_norm|].
  cbn [Datatypes.app forallb is_disconnect is_complete_call is_release teardown_action
       negb andb].
  rewrite forallb_app. apply andb_true_iff. split.
  - unfold setup_steps.
    now destruct (proxy_created e), (status_handler_id e <=? 0)%N,
      (completed_handler_id e <=? 0)%N.
  - unfold loop_part. destruct (setup_fails e); [reflexivity|].
    cbn [forallb is_disconnect is_complete_call is_release teardown_action negb andb].
    apply (forallb_weaken handler_action); [|apply loop_trace_actions].
    intros a. now destruct a as [| | | | | | | | | | |? []|[]|? []| | | | | | | |].
Qed.

End Runs.

(** ** The further properties at concrete sessions *)

Lemma unending_run_waits_witness :
  run_ends (service [progress 10 "checking"; Completed (-1)]) = false /\
  waiting (session 0 "update.raucb" (Some drain_all) (Some read_only)
             (service [progress 10 "checking"; Completed (-1)])) = true /\
  forallb (fun a => negb (is_disconnect a) && negb (is_complete_call a)
                    && negb (is_release a))
          (trace (final (session 0 "update.raucb" (Some drain_all) (Some read_only)
                           (service [progress 10 "checking"; Completed (-1)])))) = true.
Proof.
  split; [reflexivity|].
  apply unending_run_waits. reflexivity.
Defined.

Lemma drained_delivery_once_per_text_witness :
  drains drain_all /\
  setup_fails (service_passes [[progress 10 "checking"];
                               [Completed 0; progress 100 "done"]]) = false /\
  filter is_delivery
    (trace (final (session 0 "update.raucb" (Some drain_all) (Some read_only)
                     (service_passes [[progress 10 "checking"];
                                      [Completed 0; progress 100 "done"]])))) =
  flat_map (delivery_of 1%nat) [" 10% checking"; "100% done"].
Proof.
  assert (Hdr : drains drain_all) by (intros r q; reflexivity).
  split; [exact Hdr|]. split; [reflexivity|].
  exact (drained_delivery_once_per_text 0 "update.raucb" (Some drain_all) (Some read_only)
           (service_passes [[progress 10 "checking"];
                            [Completed 0; progress 100 "done"]])
           drain_all eq_refl Hdr eq_refl).
Defined.

Lemma returned_session_teardown_witness :
  exists body,
    trace (final (session 0 "update.raucb" (Some drain_all) (Some read_only)
                    (service [progress 10 "checking"; Completed 0]))) =
      body ++ leave_actions (Some read_only) 1%nat ++ free_actions 1%nat /\
    forallb (fun a => negb (is_disconnect a) && negb (is_complete_call a)
                      && negb (is_release a) && negb (teardown_action a)) body = true.
Proof.
  apply returned_session_teardown. vm_compute. reflexivity.
Defined.

Lemma unclassified_notification_witness :
  let w := on_installer_status operation_installing None
             (rauc_install 0 "update.raucb" (Some read_only) None) in
  status_messages (context w) = ["installing"] /\
  exists served,
    trace (on_installer_status [("BootSlot", GV_s "A")] None w) =
      trace w ++ [a_lock status_mutex; a_unlock status_mutex;
                  a_invoke 1%nat cb_notify_event; served] /\
    (served = a_call cb_notify_event \/
     served = a_idle_attach 1%nat cb_notify_event).
Proof.
  split; [reflexivity|].
  exact (unclassified_notification [("BootSlot", GV_s "A")] None read_only
           (on_installer_status operation_installing None
              (rauc_install 0 "update.raucb" (Some read_only) None))
           eq_refl eq_refl eq_refl).
Defined.

Lemma progress_text_width_witness :
  0 <= 7 <= 100 /\
  String.length (printf_progress 7 "checking") = (5 + String.length "checking")%nat /\
  substring 5 (String.length "checking") (printf_progress 7 "checking") = "checking".
Proof.
  split; [lia|].
  apply progress_text_width. lia.
Defined.
